(** * quotaservice: the server facade ([Allow], config mutation, reload)

    Shallow embedding of the two copies of the quotaservice [server] that
    the repository carries:

    - [Server]   : the copy with [readUpdatedConfig], [HistoricalConfigs]
                   and the three-valued [Allow]
                   (src/admin/ui_test.go, lines 74-399);
    - [ServerGo] : the copy in src/server.go.

    The bucket container, the buckets, the event producer, the persister
    and the config codec live in packages that are not part of the sources
    at hand; they are interfaces here (type classes), and every statement
    about the server is proved for all their implementations.  A small
    in-memory implementation ([Toy]) is used to run the code on inputs. *)

From Stdlib Require Import ZArith List String Bool Lia Permutation Sorted.
Import ListNotations.
Open Scope string_scope.
Open Scope Z_scope.

(** ** Machine integers and durations *)

(** Two's complement wrap-around of a signed [bits]-bit Go integer. *)
Definition wrap (bits z : Z) : Z :=
  (z + 2 ^ (bits - 1)) mod 2 ^ bits - 2 ^ (bits - 1).

Definition wrap64 : Z -> Z := wrap 64.

(** [time.Duration] is an int64 count of nanoseconds. *)
Definition Duration := Z.
Definition Millisecond : Duration := 1000000.

(** [d *= time.Duration(x)] *)
Definition mulDuration (d : Duration) (x : Z) : Duration := wrap64 (d * x).

(** ** Errors and events *)

Inductive ErrorReason :=
| ER_NO_BUCKET
| ER_TOO_MANY_BUCKETS
| ER_TOO_MANY_TOKENS_REQUESTED
| ER_TIMEOUT.

(** A Go [error] value: either one built by [newError(msg, reason)] (the
    message text carries no control flow and is left out), or an error
    handed back by one of the outside packages. *)
Inductive error :=
| newError (reason : ErrorReason)
| externalError (msg : string).

(** The constructors of the events package that the server calls. *)
Inductive Event :=
| NewBucketMissedEvent (namespace name : string) (dynamic : bool)
| NewTooManyTokensRequestedEvent (namespace name : string) (dynamic : bool) (numTokens : Z)
| NewTimedOutEvent (namespace name : string) (dynamic : bool) (numTokens : Z)
| NewTokensServedEvent (namespace name : string) (dynamic : bool) (numTokens : Z) (waitTime : Duration).

Inductive EventType :=
| BUCKET_MISSED
| TOO_MANY_TOKENS_REQUESTED
| TIMED_OUT
| TOKENS_SERVED.

Definition EventType_of (e : Event) : EventType :=
  match e with
  | NewBucketMissedEvent _ _ _ => BUCKET_MISSED
  | NewTooManyTokensRequestedEvent _ _ _ _ => TOO_MANY_TOKENS_REQUESTED
  | NewTimedOutEvent _ _ _ _ => TIMED_OUT
  | NewTokensServedEvent _ _ _ _ _ => TOKENS_SERVED
  end.

(** ** Configuration messages *)

(** Modelled from the spec: the generated protobuf declarations
    (protos/config) are missing; the fields are those of the data model. *)
Record BucketConfig := mkBucketConfig {
  Size : Z;
  FillRate : Z;
  WaitTimeoutMillis : Z;
  MaxIdleMillis : Z;
  MaxDebtMillis : Z;
  MaxTokensPerRequest : Z
}.

(** Modelled from the spec: the generated protobuf declarations
    (protos/config) are missing. *)
Record NamespaceConfig := mkNamespaceConfig {
  NsName : string;
  MaxDynamicBuckets : Z;
  DynamicBucketTemplate : option BucketConfig;
  DefaultBucket : option BucketConfig;
  Buckets : list (string * BucketConfig)
}.

(** Modelled from the spec: the generated protobuf declarations
    (protos/config) are missing.  The server reads and writes [Version],
    [User] and [Date]; the width of the [Version] field is a parameter of
    the development ([versionBits] below). *)
Record ServiceConfig := mkServiceConfig {
  Version : Z;
  User : string;
  Date : Z;
  GlobalDefaultBucket : option BucketConfig;
  Namespaces : list NamespaceConfig
}.

Definition set_User (u : string) (c : ServiceConfig) : ServiceConfig :=
  mkServiceConfig (Version c) u (Date c) (GlobalDefaultBucket c) (Namespaces c).
Definition set_Date (d : Z) (c : ServiceConfig) : ServiceConfig :=
  mkServiceConfig (Version c) (User c) d (GlobalDefaultBucket c) (Namespaces c).
Definition set_Version (v : Z) (c : ServiceConfig) : ServiceConfig :=
  mkServiceConfig v (User c) (Date c) (GlobalDefaultBucket c) (Namespaces c).

(** lifecycle.Status *)
Inductive Status := Initialized | Started | Stopped.

(** ** The interfaces the server consumes *)

(** [*bucketContainer] and the [Bucket] interface.  A [Container] value is
    the container together with the buckets it owns, so the calls that
    mutate a bucket or register a dynamic one return the new container. *)
Class BucketAPI := {
  Container : Type;
  Bucket : Type;
  Config : Bucket -> BucketConfig;
  Dynamic : Bucket -> bool;
  (* bc.FindBucket(namespace, name) -> (bucket, err) *)
  FindBucket : Container -> string -> string -> (option Bucket * option error) * Container;
  (* b.Take(numTokens, maxWaitTime) -> (waitTime, success) *)
  Take : Bucket -> Z -> Duration -> Container -> (Duration * bool) * Container;
  (* NewBucketContainer(cfg, factory, s); the pointer may be nil *)
  NewBucketContainer : option ServiceConfig -> Container
}.

(** events.EventProducer *)
Class ProducerAPI := {
  EventProducer : Type;
  (* events.RegisterListener(listener, bufSize) *)
  RegisterListener : Z -> EventProducer;
  (* producer.Emit(e) *)
  producerEmit : EventProducer -> Event -> EventProducer
}.

(** Package config: config.ConfigPersister, the codec and the editors.  [Reader] is
    Go's io.Reader.  [receive] is a receive on the channel returned by
    [ConfigChangedWatcher()]: [None] when no signal is pending (the
    receiver blocks), otherwise the persister with one signal consumed. *)
Class ConfigAPI := {
  Persister : Type;
  Reader : Type;
  ReadPersistedConfig : Persister -> Reader * option error;
  ReadHistoricalConfigs : Persister -> list Reader * option error;
  PersistAndNotify : Persister -> Reader -> option error * Persister;
  receive : Persister -> option Persister;
  (* config.Marshal(cfg) -> (reader, err) *)
  Marshal : ServiceConfig -> Reader * option error;
  (* config.Unmarshal(reader): the config, or the error together with the
     pointer that comes with it *)
  Unmarshal : Reader -> ServiceConfig + (option ServiceConfig * error);
  (* config.ApplyDefaults(cfg) *)
  ApplyDefaults : ServiceConfig -> ServiceConfig;
  (* the editing functions of package config: the edited config and the
     error they return *)
  CreateBucket : ServiceConfig -> string -> BucketConfig -> ServiceConfig * option error;
  UpdateBucket : ServiceConfig -> string -> BucketConfig -> ServiceConfig * option error;
  DeleteBucket : ServiceConfig -> string -> string -> ServiceConfig * option error;
  CreateNamespace : ServiceConfig -> NamespaceConfig -> ServiceConfig * option error;
  UpdateNamespace : ServiceConfig -> NamespaceConfig -> ServiceConfig * option error;
  DeleteNamespace : ServiceConfig -> string -> ServiceConfig * option error
}.

(** ** State, calls and the monad of the server's methods *)

(** The result of running a method: it returns, it panics (a nil
    dereference), or it blocks on a channel receive. *)
Inductive Res (A : Type) :=
| Ret (a : A)
| Panic
| Blocked.
Arguments Ret {A} a.
Arguments Panic {A}.
Arguments Blocked {A}.

Section Model.
Context {BA : BucketAPI} {PA : ProducerAPI} {SA : ConfigAPI}.

(** The fields of [struct server] that the methods below use. *)
Record server := mkServer {
  currentStatus : Status;
  bucketContainer : option Container;
  rpcEndpoints : list string;
  eventQueueBufSize : Z;
  producer : option EventProducer;
  cfgs : option ServiceConfig;
  persister : Persister
}.

(** The calls a method makes on its collaborators, in program order. *)
Inductive Call :=
| CEmit (e : Event)
| CTake (b : Bucket) (numTokens : Z) (maxWaitTime : Duration)
| CLog (msg : string)
| CFactoryInit (c : option ServiceConfig)
| CPersistAndNotify (r : Reader)
| CRpcInit (endpoint : string)
| CRpcStart (endpoint : string)
| CRpcStop (endpoint : string)
| CGo_configListener.

Record World := mkWorld {
  sv : server;
  calls : list Call
}.

Definition M (A : Type) : Type := World -> Res (A * World).

Definition ret {A} (a : A) : M A := fun w => Ret (a, w).

Definition bind {A B} (m : M A) (k : A -> M B) : M B :=
  fun w => match m w with
           | Ret (a, w') => k a w'
           | Panic => Panic
           | Blocked => Blocked
           end.

Definition panic {A} : M A := fun _ => Panic.
Definition block {A} : M A := fun _ => Blocked.
Definition get : M server := fun w => Ret (sv w, w).
Definition put (s : server) : M unit := fun w => Ret (tt, mkWorld s (calls w)).
Definition call (c : Call) : M unit :=
  fun w => Ret (tt, mkWorld (sv w) (calls w ++ [c])).

End Model.

Notation "x <- m ;; k" := (bind m (fun x => k))
  (at level 61, m at next level, right associativity).
Notation "' pat <- m ;; k" := (bind m (fun x => match x with pat => k end))
  (at level 61, pat pattern, m at next level, right associativity).
Notation "m ;;; k" := (bind m (fun _ => k))
  (at level 61, right associativity).

Section Setters.
Context {BA : BucketAPI} {PA : ProducerAPI} {SA : ConfigAPI}.

Definition set_currentStatus (x : Status) (s : server) : server :=
  mkServer x (bucketContainer s) (rpcEndpoints s) (eventQueueBufSize s)
           (producer s) (cfgs s) (persister s).
Definition set_bucketContainer (x : option Container) (s : server) : server :=
  mkServer (currentStatus s) x (rpcEndpoints s) (eventQueueBufSize s)
           (producer s) (cfgs s) (persister s).
Definition set_producer (x : option EventProducer) (s : server) : server :=
  mkServer (currentStatus s) (bucketContainer s) (rpcEndpoints s)
           (eventQueueBufSize s) x (cfgs s) (persister s).
Definition set_cfgs (x : option ServiceConfig) (s : server) : server :=
  mkServer (currentStatus s) (bucketContainer s) (rpcEndpoints s)
           (eventQueueBufSize s) (producer s) x (persister s).
Definition set_persister (x : Persister) (s : server) : server :=
  mkServer (currentStatus s) (bucketContainer s) (rpcEndpoints s)
           (eventQueueBufSize s) (producer s) (cfgs s) x.

(** [s.bucketContainer.FindBucket(namespace, name)]: a nil container is
    dereferenced by the callee. *)
Definition findBucket (namespace name : string) : M (option Bucket * option error) :=
  s <- get ;;
  match bucketContainer s with
  | None => panic
  | Some bc =>
      let '(r, bc') := FindBucket bc namespace name in
      put (set_bucketContainer (Some bc') s) ;;;
      ret r
  end.

(** [b.Take(tokensRequested, maxWaitTime)] on a bucket of the live
    container. *)
Definition take (b : Bucket) (tokensRequested : Z) (maxWaitTime : Duration)
  : M (Duration * bool) :=
  call (CTake b tokensRequested maxWaitTime) ;;;
  s <- get ;;
  match bucketContainer s with
  | None => panic
  | Some bc =>
      let '(r, bc') := Take b tokensRequested maxWaitTime bc in
      put (set_bucketContainer (Some bc') s) ;;;
      ret r
  end.

(** [func (s *server) Emit(e events.Event)], the same in both copies. *)
Definition Emit (e : Event) : M unit :=
  call (CEmit e) ;;;
  s <- get ;;
  match producer s with
  | Some p => put (set_producer (Some (producerEmit p e)) s)
  | None => ret tt
  end.

End Setters.

(** ** The methods shared by both copies *)

Section Shared.
Context {BA : BucketAPI} {PA : ProducerAPI} {SA : ConfigAPI}.

(** [func (s *server) createBucketContainer(newConfig *pb.ServiceConfig)] *)
Definition createBucketContainer (newConfig : option ServiceConfig) : M unit :=
  call (CFactoryInit newConfig) ;;;
  s <- get ;;
  put (set_bucketContainer (Some (NewBucketContainer newConfig))
         (set_cfgs newConfig s)).

(** [<-ch] on the persister's change channel. *)
Definition recv : M unit :=
  s <- get ;;
  match receive (persister s) with
  | None => block
  | Some p => put (set_persister p s)
  end.

(** [s.persister.PersistAndNotify(r)] *)
Definition persistAndNotify (r : Reader) : M (option error) :=
  call (CPersistAndNotify r) ;;;
  s <- get ;;
  let '(e, p) := PersistAndNotify (persister s) r in
  put (set_persister p s) ;;;
  ret e.

(** [for _, rpcServer := range s.rpcEndpoints { ... }] *)
Fixpoint forEach (l : list string) (body : string -> M unit) : M unit :=
  match l with
  | [] => ret tt
  | x :: rest => body x ;;; forEach rest body
  end.

(** [func (s *server) Stop() (bool, error)] *)
Definition Stop : M (bool * option error) :=
  s <- get ;;
  put (set_currentStatus Stopped s) ;;;
  forEach (rpcEndpoints s) (fun r => call (CRpcStop r)) ;;;
  ret (true, None).

End Shared.

(** ** The copy in src/admin/ui_test.go (lines 74-399) *)

Module Server.
Section Methods.
Context {BA : BucketAPI} {PA : ProducerAPI} {SA : ConfigAPI}.

(** Width in bits of the integer type of [ServiceConfig.Version]. *)
Variable versionBits : Z.

(** [func (s *server) Allow(namespace, name string, tokensRequested int64,
    maxWaitMillisOverride int64, maxWaitTimeOverride bool)
    (time.Duration, bool, error)] *)
Definition Allow (namespace name : string) (tokensRequested : Z)
    (maxWaitMillisOverride : Z) (maxWaitTimeOverride : bool)
  : M (Duration * bool * option error) :=
  '(b, e) <- findBucket namespace name ;;
  match e with
  | Some _ =>
      Emit (NewBucketMissedEvent namespace name true) ;;;
      ret (0, true, Some (newError ER_TOO_MANY_BUCKETS))
  | None =>
  match b with
  | None =>
      Emit (NewBucketMissedEvent namespace name false) ;;;
      ret (0, false, Some (newError ER_NO_BUCKET))
  | Some b =>
  if (MaxTokensPerRequest (Config b) <? tokensRequested)
     && (MaxTokensPerRequest (Config b) >? 0)
  then
      Emit (NewTooManyTokensRequestedEvent namespace name (Dynamic b) tokensRequested) ;;;
      ret (0, Dynamic b, Some (newError ER_TOO_MANY_TOKENS_REQUESTED))
  else
    let maxWaitTime :=
      if maxWaitTimeOverride
         && (maxWaitMillisOverride <? WaitTimeoutMillis (Config b))
      then mulDuration Millisecond maxWaitMillisOverride
      else mulDuration Millisecond (WaitTimeoutMillis (Config b)) in
    '(w, success) <- take b tokensRequested maxWaitTime ;;
    if negb success then
      Emit (NewTimedOutEvent namespace name (Dynamic b) tokensRequested) ;;;
      ret (0, Dynamic b, Some (newError ER_TIMEOUT))
    else
      Emit (NewTokensServedEvent namespace name (Dynamic b) tokensRequested w) ;;;
      ret (w, Dynamic b, None)
  end
  end.

(** [func (s *server) readUpdatedConfig()] *)
Definition readUpdatedConfig : M unit :=
  s <- get ;;
  let '(configReader, err) := ReadPersistedConfig (persister s) in
  match err with
  | Some _ => call (CLog "error reading persisted config")
  | None =>
      match Unmarshal configReader with
      | inr _ => call (CLog "error reading marshalled config")
      | inl newConfig => createBucketContainer (Some newConfig)
      end
  end.

(** [func (s *server) configListener(ch chan struct{})]: the first [n]
    rounds of [for range ch]. *)
Fixpoint configListener (n : nat) : M unit :=
  match n with
  | O => ret tt
  | S k => recv ;;; readUpdatedConfig ;;; configListener k
  end.

(** [func (s *server) Start() (bool, error)] *)
Definition Start : M (bool * option error) :=
  s <- get ;;
  let bufSize := if eventQueueBufSize s <? 1 then 1 else eventQueueBufSize s in
  put (set_producer (Some (RegisterListener bufSize)) s) ;;;
  recv ;;;
  readUpdatedConfig ;;;
  call CGo_configListener ;;;
  forEach (rpcEndpoints s) (fun r => call (CRpcInit r) ;;; call (CRpcStart r)) ;;;
  s <- get ;;
  put (set_currentStatus Started s) ;;;
  ret (true, None).

(** [func (s *server) updateConfig(user string,
    updater func(clonedCfg) error) error]; [now] is the reading of
    [time.Now().Unix()].  [proto.Clone] is a deep copy: the updater works
    on a value of its own. *)
Definition updateConfig (user : string) (now : Z)
    (updater : ServiceConfig -> ServiceConfig * option error)
  : M (option error) :=
  s <- get ;;
  match cfgs s with
  | None => panic
  | Some clonedCfg =>
      let currentVersion := Version clonedCfg in
      let '(clonedCfg, err) := updater clonedCfg in
      match err with
      | Some err => ret (Some err)
      | None =>
          let clonedCfg := ApplyDefaults clonedCfg in
          let clonedCfg := set_User user clonedCfg in
          let clonedCfg := set_Date now clonedCfg in
          let clonedCfg :=
            set_Version (wrap versionBits (currentVersion + 1)) clonedCfg in
          let '(r, e) := Marshal clonedCfg in
          match e with
          | Some e => ret (Some e)
          | None => persistAndNotify r
          end
      end
  end.

Definition UpdateConfig (c : ServiceConfig) (user : string) (now : Z) :=
  updateConfig user now (fun _ => (c, None)).
Definition AddBucket (namespace : string) (b : BucketConfig) (user : string) (now : Z) :=
  updateConfig user now (fun clonedCfg => CreateBucket clonedCfg namespace b).
Definition UpdateBucket (namespace : string) (b : BucketConfig) (user : string) (now : Z) :=
  updateConfig user now (fun clonedCfg => SA.(UpdateBucket) clonedCfg namespace b).
Definition DeleteBucket (namespace name user : string) (now : Z) :=
  updateConfig user now (fun clonedCfg => SA.(DeleteBucket) clonedCfg namespace name).
Definition AddNamespace (n : NamespaceConfig) (user : string) (now : Z) :=
  updateConfig user now (fun clonedCfg => CreateNamespace clonedCfg n).
Definition UpdateNamespace (n : NamespaceConfig) (user : string) (now : Z) :=
  updateConfig user now (fun clonedCfg => SA.(UpdateNamespace) clonedCfg n).
Definition DeleteNamespace (n user : string) (now : Z) :=
  updateConfig user now (fun clonedCfg => SA.(DeleteNamespace) clonedCfg n).

(** Modelled from the spec: the declaration of [SortedConfigs] (its
    [Less]) is missing; history is ordered by version, descending. *)
Definition SortedConfigs_Less (a b : ServiceConfig) : bool :=
  Version b <? Version a.

(** [sort.Sort] on a [SortedConfigs]: a comparison sort by [Less].  The
    library's algorithm is not stable; the insertion sort here differs
    from it at most in the order of configs that compare equal. *)
Fixpoint sort_insert (c : ServiceConfig) (l : list ServiceConfig) : list ServiceConfig :=
  match l with
  | [] => [c]
  | x :: rest =>
      if SortedConfigs_Less x c then x :: sort_insert c rest else c :: l
  end.

Definition sort_Sort (l : list ServiceConfig) : list ServiceConfig :=
  fold_right sort_insert [] l.

(** The loop of [HistoricalConfigs]: unmarshal in order, stop at the
    first error. *)
Fixpoint unmarshalConfigs (configs : list Reader) : list ServiceConfig + error :=
  match configs with
  | [] => inl []
  | newConfig :: rest =>
      match Unmarshal newConfig with
      | inr (_, err) => inr err
      | inl unmarshalledConfig =>
          match unmarshalConfigs rest with
          | inl l => inl (unmarshalledConfig :: l)
          | inr err => inr err
          end
      end
  end.

(** [func (s *server) HistoricalConfigs() ([]*pb.ServiceConfig, error)];
    [None] is the nil slice. *)
Definition HistoricalConfigs : M (option (list ServiceConfig) * option error) :=
  s <- get ;;
  let '(configs, err) := ReadHistoricalConfigs (persister s) in
  match err with
  | Some err => ret (None, Some err)
  | None =>
      match unmarshalConfigs configs with
      | inr err => ret (None, Some err)
      | inl unmarshalledConfigs => ret (Some (sort_Sort unmarshalledConfigs), None)
      end
  end.

End Methods.
End Server.

(** ** The copy in src/server.go *)

Module ServerGo.
Section Methods.
Context {BA : BucketAPI} {PA : ProducerAPI} {SA : ConfigAPI}.

(** [func (s *server) Allow(namespace, name string, tokensRequested int64,
    maxWaitMillisOverride int64, maxWaitTimeOverride bool)
    (time.Duration, error)] *)
Definition Allow (namespace name : string) (tokensRequested : Z)
    (maxWaitMillisOverride : Z) (maxWaitTimeOverride : bool)
  : M (Duration * option error) :=
  '(b, e) <- findBucket namespace name ;;
  match e with
  | Some _ =>
      Emit (NewBucketMissedEvent namespace name true) ;;;
      ret (0, Some (newError ER_TOO_MANY_BUCKETS))
  | None =>
  match b with
  | None =>
      Emit (NewBucketMissedEvent namespace name false) ;;;
      ret (0, Some (newError ER_NO_BUCKET))
  | Some b =>
  if (MaxTokensPerRequest (Config b) <? tokensRequested)
     && (MaxTokensPerRequest (Config b) >? 0)
  then
      Emit (NewTooManyTokensRequestedEvent namespace name (Dynamic b) tokensRequested) ;;;
      ret (0, Some (newError ER_TOO_MANY_TOKENS_REQUESTED))
  else
    let maxWaitTime :=
      if maxWaitTimeOverride
      then mulDuration Millisecond maxWaitMillisOverride
      else mulDuration Millisecond (WaitTimeoutMillis (Config b)) in
    '(w, success) <- take b tokensRequested maxWaitTime ;;
    if negb success then
      Emit (NewTimedOutEvent namespace name (Dynamic b) tokensRequested) ;;;
      ret (0, Some (newError ER_TIMEOUT))
    else
      Emit (NewTokensServedEvent namespace name (Dynamic b) tokensRequested w) ;;;
      ret (w, None)
  end
  end.

(** One round of the loop of [configListener]: neither error ends the
    round, and [createBucketContainer] receives the pointer that
    [config.Unmarshal] returned. *)
Definition configListener_round : M unit :=
  s <- get ;;
  let '(configReader, err) := ReadPersistedConfig (persister s) in
  match err with
  | Some _ => call (CLog "error reading persisted config")
  | None => ret tt
  end ;;;
  match Unmarshal configReader with
  | inr (newConfig, _) =>
      call (CLog "error reading marshalled config") ;;;
      createBucketContainer newConfig
  | inl newConfig => createBucketContainer (Some newConfig)
  end.

(** [func (s *server) configListener(ch chan struct{})]: the first [n]
    rounds of [for range ch]. *)
Fixpoint configListener (n : nat) : M unit :=
  match n with
  | O => ret tt
  | S k => recv ;;; configListener_round ;;; configListener k
  end.

(** [func (s *server) Start() (bool, error)] *)
Definition Start : M (bool * option error) :=
  s <- get ;;
  put (set_producer (Some (RegisterListener (eventQueueBufSize s))) s) ;;;
  call CGo_configListener ;;;
  forEach (rpcEndpoints s) (fun r => call (CRpcInit r) ;;; call (CRpcStart r)) ;;;
  s <- get ;;
  put (set_currentStatus Started s) ;;;
  ret (true, None).

(** [func (s *server) updateConfig(updater func(clonedCfg) error) error].
    A nil clone is handed to the updater, which dereferences it. *)
Definition updateConfig
    (updater : ServiceConfig -> ServiceConfig * option error)
  : M (option error) :=
  s <- get ;;
  match cfgs s with
  | None => panic
  | Some clonedCfg =>
      let '(clonedCfg, err) := updater clonedCfg in
      match err with
      | Some err => ret (Some err)
      | None =>
          let '(r, e) := Marshal clonedCfg in
          match e with
          | Some e => ret (Some e)
          | None => persistAndNotify r
          end
      end
  end.

Definition UpdateConfig (c : ServiceConfig) :=
  updateConfig (fun _ => (ApplyDefaults c, None)).
Definition AddBucket (namespace : string) (b : BucketConfig) :=
  updateConfig (fun clonedCfg => CreateBucket clonedCfg namespace b).
Definition UpdateBucket (namespace : string) (b : BucketConfig) :=
  updateConfig (fun clonedCfg => SA.(UpdateBucket) clonedCfg namespace b).
Definition DeleteBucket (namespace name : string) :=
  updateConfig (fun clonedCfg => SA.(DeleteBucket) clonedCfg namespace name).
Definition AddNamespace (n : NamespaceConfig) :=
  updateConfig (fun clonedCfg => CreateNamespace clonedCfg n).
Definition UpdateNamespace (n : NamespaceConfig) :=
  updateConfig (fun clonedCfg => SA.(UpdateNamespace) clonedCfg n).
Definition DeleteNamespace (n : string) :=
  updateConfig (fun clonedCfg => SA.(DeleteNamespace) clonedCfg n).

End Methods.
End ServerGo.

(** ** Construction, setup and the live config *)

Section Setup.
Context {BA : BucketAPI} {PA : ProducerAPI} {SA : ConfigAPI}.

Definition set_eventQueueBufSize (x : Z) (s : server) : server :=
  mkServer (currentStatus s) (bucketContainer s) (rpcEndpoints s) x
           (producer s) (cfgs s) (persister s).


(** [func (s *server) Configs() *pb.ServiceConfig] *)
Definition Configs : M (option ServiceConfig) :=
  s <- get ;;
  ret (cfgs s).

(** [func (s *server) SetListener(listener events.Listener,
    eventQueueBufSize int)].  The [listener] field of the struct is kept
    beside the server, as the second component of the state. *)
Definition SetListener {L : Type} (listener : option L) (eventQueueBufSize : Z)
    (st : server * option L) : Res (server * option L) :=
  match currentStatus (fst st) with
  | Started => Panic
  | _ =>
      if eventQueueBufSize <? 1 then Panic
      else Ret (set_eventQueueBufSize eventQueueBufSize (fst st), listener)
  end.


(** The live config and the live container are there together or not at
    all. *)
Definition installed_together (s : server) : Prop :=
  (cfgs s = None /\ bucketContainer s = None) \/
  (exists c bc, cfgs s = Some c /\ bucketContainer s = Some bc).

(** The live config and the live container are both there. *)
Definition installed (s : server) : Prop :=
  exists c bc, cfgs s = Some c /\ bucketContainer s = Some bc.

(** From [s] to [s']: either both are there in [s'], or the config is
    the one of [s] and the container is nil in [s'] exactly when it is
    in [s]. *)
Definition keeps_installation (s s' : server) : Prop :=
  installed s' \/
  (cfgs s' = cfgs s /\ (bucketContainer s' = None <-> bucketContainer s = None)).

(** The world with another lifecycle status. *)
Definition with_status (st : Status) (w : World) : World :=
  mkWorld (set_currentStatus st (sv w)) (calls w).

End Setup.

(** ** An in-memory implementation of the interfaces

    Used to run the methods on inputs.  One pool of tokens serves every
    bucket; a token that is not yet there costs 100 ms of waiting. *)

Module Toy.

Definition bucketCfg : BucketConfig :=
  mkBucketConfig 10 10 5000 0 10000 0.

Definition cappedCfg : BucketConfig :=
  mkBucketConfig 10 10 5000 0 10000 5.

Definition toyFindBucket (c : Z) (namespace name : string)
  : (option (BucketConfig * bool) * option error) * Z :=
  if String.eqb name "missing" then ((None, None), c)
  else if String.eqb name "overflow"
  then ((None, Some (newError ER_TOO_MANY_BUCKETS)), c)
  else if String.eqb name "capped" then ((Some (cappedCfg, false), None), c)
  else if String.eqb namespace "dyn" then ((Some (bucketCfg, true), None), c)
  else ((Some (bucketCfg, false), None), c).

Definition toyTake (b : BucketConfig * bool) (n : Z) (maxWait : Duration) (c : Z)
  : (Duration * bool) * Z :=
  if n <=? c then ((0, true), c - n)
  else
    let w := (n - Z.max c 0) * (100 * Millisecond) in
    if w <=? maxWait then ((w, true), c - n) else ((0, false), c).

#[export] Instance buckets : BucketAPI := {|
  Container := Z;
  Bucket := BucketConfig * bool;
  Config := fst;
  Dynamic := snd;
  FindBucket := toyFindBucket;
  Take := toyTake;
  NewBucketContainer := fun _ => 10
|}.

#[export] Instance producers : ProducerAPI := {|
  EventProducer := list Event;
  RegisterListener := fun _ => [];
  producerEmit := fun p e => (p ++ [e])%list
|}.

(** The persister: the stored bytes ([None]: reading fails), the history,
    the signals pending on the watcher channel, and whether persisting
    fails.  A reader either decodes to a config or is garbage. *)
Record store := mkStore {
  stored : option (option ServiceConfig);
  history : list (option ServiceConfig);
  historyFails : bool;
  signals : nat;
  persistFails : bool
}.

Definition toyRead (p : store) : option ServiceConfig * option error :=
  match stored p with
  | Some r => (r, None)
  | None => (None, Some (externalError "read failed"))
  end.

Definition toyHistory (p : store) : list (option ServiceConfig) * option error :=
  if historyFails p then ([], Some (externalError "history failed"))
  else (history p, None).

Definition toyPersist (p : store) (r : option ServiceConfig) : option error * store :=
  if persistFails p then (Some (externalError "persist failed"), p)
  else (None, mkStore (Some r) (r :: history p) (historyFails p)
                      (S (signals p)) (persistFails p)).

Definition toyReceive (p : store) : option store :=
  match signals p with
  | O => None
  | S k => Some (mkStore (stored p) (history p) (historyFails p) k (persistFails p))
  end.

Definition toyUnmarshal (r : option ServiceConfig)
  : ServiceConfig + (option ServiceConfig * error) :=
  match r with
  | Some c => inl c
  | None => inr (None, externalError "malformed config")
  end.

Definition toyDefaults (c : ServiceConfig) : ServiceConfig :=
  match GlobalDefaultBucket c with
  | Some _ => c
  | None => mkServiceConfig (Version c) (User c) (Date c) (Some bucketCfg) (Namespaces c)
  end.

Definition hasNamespace (c : ServiceConfig) (n : string) : bool :=
  existsb (fun ns => String.eqb (NsName ns) n) (Namespaces c).

Definition toyCreateNamespace (c : ServiceConfig) (n : NamespaceConfig)
  : ServiceConfig * option error :=
  if hasNamespace c (NsName n)
  then (c, Some (externalError "namespace exists"))
  else (mkServiceConfig (Version c) (User c) (Date c) (GlobalDefaultBucket c)
                        (Namespaces c ++ [n])%list, None).

Definition toyDeleteNamespace (c : ServiceConfig) (n : string)
  : ServiceConfig * option error :=
  if hasNamespace c n
  then (mkServiceConfig (Version c) (User c) (Date c) (GlobalDefaultBucket c)
          (filter (fun ns => negb (String.eqb (NsName ns) n)) (Namespaces c)), None)
  else (c, Some (externalError "no such namespace")).

Definition toyBucketEdit (c : ServiceConfig) (n : string)
  : ServiceConfig * option error :=
  if hasNamespace c n then (c, None)
  else (c, Some (externalError "no such namespace")).

#[export] Instance configs : ConfigAPI := {|
  Persister := store;
  Reader := option ServiceConfig;
  ReadPersistedConfig := toyRead;
  ReadHistoricalConfigs := toyHistory;
  PersistAndNotify := toyPersist;
  receive := toyReceive;
  Marshal := fun c => (Some c, None);
  Unmarshal := toyUnmarshal;
  ApplyDefaults := toyDefaults;
  CreateBucket := fun c n _ => toyBucketEdit c n;
  UpdateBucket := fun c n _ => toyBucketEdit c n;
  DeleteBucket := fun c n _ => toyBucketEdit c n;
  CreateNamespace := toyCreateNamespace;
  UpdateNamespace := fun c n => toyBucketEdit c (NsName n);
  DeleteNamespace := toyDeleteNamespace
|}.

Definition cfg7 : ServiceConfig := mkServiceConfig 7 "alice" 1000 None [].

Definition emptyStore : store := mkStore (Some (Some cfg7)) [] false 0 false.

(** A server in service: a container with 10 tokens, a producer. *)
Definition running : World :=
  mkWorld (mkServer Started (Some 10) ["grpc"] 1 (Some []) (Some cfg7) emptyStore) [].

(** A server just built by [New]: nothing installed yet. *)
Definition fresh (p : store) : World :=
  mkWorld (mkServer Initialized None ["grpc"] 0 None None p) [].

(** A persister whose stored bytes cannot be read, with one signal
    pending. *)
Definition unreadable : store := mkStore None [] false 1 false.

(** A persister that holds version 8, with one signal pending. *)
Definition holding8 : store :=
  mkStore (Some (Some (set_Version 8 cfg7))) [] false 1 false.

(** A server in service whose persister can no longer be read, with one
    signal pending: 3 tokens left in its container. *)
Definition degraded : World :=
  mkWorld (mkServer Started (Some 3) ["grpc"] 1 (Some []) (Some cfg7) unreadable) [].

Definition tenant : NamespaceConfig :=
  mkNamespaceConfig "tenant" 2 (Some bucketCfg) None [].

(** A server whose persister holds three versions, out of order. *)
Definition archived : World :=
  mkWorld (mkServer Started (Some 10) ["grpc"] 1 (Some []) (Some cfg7)
             (mkStore (Some (Some cfg7))
                      [Some cfg7; Some (set_Version 9 cfg7); Some (set_Version 8 cfg7)]
                      false 0 false)) [].

End Toy.

(** ** Reading a run *)

Section Observations.
Context {BA : BucketAPI} {PA : ProducerAPI} {SA : ConfigAPI}.

(** The events handed to [Emit], in order. *)
Fixpoint emitted (l : list Call) : list Event :=
  match l with
  | [] => []
  | CEmit e :: rest => e :: emitted rest
  | _ :: rest => emitted rest
  end.

(** The [maxWaitTime] arguments of the calls to [Take], in order. *)
Fixpoint takes (l : list Call) : list (Bucket * Z * Duration) :=
  match l with
  | [] => []
  | CTake b n d :: rest => (b, n, d) :: takes rest
  | _ :: rest => takes rest
  end.

(** The readers handed to [PersistAndNotify], in order. *)
Fixpoint persisted (l : list Call) : list Reader :=
  match l with
  | [] => []
  | CPersistAndNotify r :: rest => r :: persisted rest
  | _ :: rest => persisted rest
  end.

(** The configs handed to [bucketFactory.Init], that is the runs of
    [createBucketContainer]. *)
Fixpoint installs (l : list Call) : list (option ServiceConfig) :=
  match l with
  | [] => []
  | CFactoryInit c :: rest => c :: installs rest
  | _ :: rest => installs rest
  end.

(** The server with another event producer (or none). *)
Definition with_producer (p : option EventProducer) (w : World) : World :=
  mkWorld (set_producer p (sv w)) (calls w).

(** The cap on the wait that the claim about overrides describes. *)
Definition cappedWait (b : Bucket) (overrideWaitMillis : Z) (useOverride : bool)
  : Duration :=
  if useOverride && (overrideWaitMillis <? WaitTimeoutMillis (Config b))
  then mulDuration Millisecond overrideWaitMillis
  else mulDuration Millisecond (WaitTimeoutMillis (Config b)).

(** The cap on the wait that src/server.go computes. *)
Definition plainWait (b : Bucket) (overrideWaitMillis : Z) (useOverride : bool)
  : Duration :=
  if useOverride
  then mulDuration Millisecond overrideWaitMillis
  else mulDuration Millisecond (WaitTimeoutMillis (Config b)).

(** The clone as the later copy hands it to [config.Marshal], from the
    clone the updater left and the version read at clone time. *)
Definition stamped (versionBits : Z) (user : string) (now currentVersion : Z)
    (edited : ServiceConfig) : ServiceConfig :=
  set_Version (wrap versionBits (currentVersion + 1))
    (set_Date now (set_User user (ApplyDefaults edited))).

(** The order of the history: versions go down. *)
Definition descending (a b : ServiceConfig) : Prop := Version b <= Version a.

(** The four pairings of emitted events and returned error that are
    listed as the only outcomes of [Allow]. *)
Definition four_outcomes (ev : list Event) (err : option error) : Prop :=
  (exists ns nm, ev = [NewBucketMissedEvent ns nm false]
                 /\ err = Some (newError ER_NO_BUCKET)) \/
  (exists ns nm, ev = [NewBucketMissedEvent ns nm true]
                 /\ err = Some (newError ER_TOO_MANY_BUCKETS)) \/
  (exists ns nm d n, ev = [NewTimedOutEvent ns nm d n]
                     /\ err = Some (newError ER_TIMEOUT)) \/
  (exists ns nm d n wt, ev = [NewTokensServedEvent ns nm d n wt]
                        /\ err = None).

End Observations.

(** * Facts *)

Ltac run :=
  cbv [Server.Allow ServerGo.Allow findBucket take Emit createBucketContainer
       recv persistAndNotify Stop Server.readUpdatedConfig Server.Start
       Server.updateConfig Server.HistoricalConfigs
       ServerGo.configListener_round ServerGo.Start ServerGo.updateConfig
       bind ret get put call panic block with_producer cappedWait plainWait] in *;
  cbn [sv calls currentStatus bucketContainer rpcEndpoints eventQueueBufSize
       producer cfgs persister set_currentStatus set_bucketContainer
       set_producer set_cfgs set_persister fst snd] in *.

Ltac open_world w :=
  let s := fresh "s" in
  let l := fresh "l" in
  destruct w as [s l]; destruct s; cbn [sv calls currentStatus bucketContainer
    rpcEndpoints eventQueueBufSize producer cfgs persister] in *.

Section AllowFacts.
Context {BA : BucketAPI} {PA : ProducerAPI} {SA : ConfigAPI}.

Lemma emitted_app (l1 l2 : list Call) :
  emitted (l1 ++ l2) = (emitted l1 ++ emitted l2)%list.
Proof.
  induction l1 as [|c l1 IH]; [reflexivity|].
  destruct c; simpl; rewrite IH; reflexivity.
Qed.

Lemma takes_app (l1 l2 : list Call) :
  takes (l1 ++ l2) = (takes l1 ++ takes l2)%list.
Proof.
  induction l1 as [|c l1 IH]; [reflexivity|].
  destruct c; simpl; rewrite IH; reflexivity.
Qed.

(** C3. A request above a positive [max_tokens_per_request] is turned
    down with TOO_MANY_TOKENS_REQUESTED: the event is emitted, [Take] is
    not called, and the container (hence every bucket's
    next-available-time) is the one resolution left behind.  With
    [max_tokens_per_request = 0] no request size is turned down by this
    check: the request reaches [Take].  Both copies of [Allow]. *)
Theorem Allow_max_tokens_per_request
    (namespace name : string) (n ovr : Z) (use : bool)
    (w : World) (bc bc' : Container) (b : Bucket) :
  bucketContainer (sv w) = Some bc ->
  FindBucket bc namespace name = ((Some b, None), bc') ->
  (0 < MaxTokensPerRequest (Config b) < n ->
     exists w',
       Server.Allow namespace name n ovr use w
         = Ret ((0, Dynamic b, Some (newError ER_TOO_MANY_TOKENS_REQUESTED)), w') /\
       ServerGo.Allow namespace name n ovr use w
         = Ret ((0, Some (newError ER_TOO_MANY_TOKENS_REQUESTED)), w') /\
       calls w' = (calls w ++
         [CEmit (NewTooManyTokensRequestedEvent namespace name (Dynamic b) n)])%list /\
       bucketContainer (sv w') = Some bc') /\
  (MaxTokensPerRequest (Config b) = 0 ->
     (exists r w', Server.Allow namespace name n ovr use w = Ret (r, w') /\
        snd r <> Some (newError ER_TOO_MANY_TOKENS_REQUESTED) /\
        exists d, takes (calls w') = (takes (calls w) ++ [(b, n, d)])%list) /\
     (exists r w', ServerGo.Allow namespace name n ovr use w = Ret (r, w') /\
        snd r <> Some (newError ER_TOO_MANY_TOKENS_REQUESTED) /\
        exists d, takes (calls w') = (takes (calls w) ++ [(b, n, d)])%list)).
Proof.
  intros Hbc Hfind. open_world w. subst. split.
  - intros [Hpos Hlt].
    assert (Hc : (MaxTokensPerRequest (Config b) <? n)
                 && (MaxTokensPerRequest (Config b) >? 0) = true).
    { apply andb_true_iff. split; [apply Z.ltb_lt | apply Z.gtb_lt]; lia. }
    run. rewrite Hfind. cbn. rewrite Hc. cbn.
    destruct producer0; cbn; eexists; (split; [reflexivity|]);
      (split; [reflexivity|]); split; reflexivity.
  - intros Hzero.
    assert (Hc : (MaxTokensPerRequest (Config b) <? n)
                 && (MaxTokensPerRequest (Config b) >? 0) = false).
    { rewrite Hzero. apply andb_false_r. }
    run. rewrite Hfind. cbn. rewrite Hc. cbn.
    split.
    + match goal with |- context [Take b n ?d bc'] =>
        destruct (Take b n d bc') as [[wt [|]] bc''] eqn:HT end; cbn;
      destruct producer0; cbn; do 2 eexists;
      (split; [reflexivity|]); cbn; (split; [discriminate|]);
      eexists; rewrite !takes_app; cbn; rewrite app_nil_r; reflexivity.
    + match goal with |- context [Take b n ?d bc'] =>
        destruct (Take b n d bc') as [[wt [|]] bc''] eqn:HT end; cbn;
      destruct producer0; cbn; do 2 eexists;
      (split; [reflexivity|]); cbn; (split; [discriminate|]);
      eexists; rewrite !takes_app; cbn; rewrite app_nil_r; reflexivity.
Qed.

(** The later copy: the result, the single emitted event and the call
    to [Take] of a call on an installed container, case by case. *)
Lemma Server_Allow_cases
    (namespace name : string) (n ovr : Z) (use : bool) (w : World) (bc : Container) :
  bucketContainer (sv w) = Some bc ->
  exists r w' l ev,
    Server.Allow namespace name n ovr use w = Ret (r, w') /\
    calls w' = (calls w ++ l)%list /\
    emitted l = [ev] /\
    match FindBucket bc namespace name with
    | ((_, Some _), _) =>
        ev = NewBucketMissedEvent namespace name true /\
        r = (0, true, Some (newError ER_TOO_MANY_BUCKETS)) /\
        takes l = []
    | ((None, None), _) =>
        ev = NewBucketMissedEvent namespace name false /\
        r = (0, false, Some (newError ER_NO_BUCKET)) /\
        takes l = []
    | ((Some b, None), bc') =>
        if (MaxTokensPerRequest (Config b) <? n)
           && (MaxTokensPerRequest (Config b) >? 0)
        then
          ev = NewTooManyTokensRequestedEvent namespace name (Dynamic b) n /\
          r = (0, Dynamic b, Some (newError ER_TOO_MANY_TOKENS_REQUESTED)) /\
          takes l = []
        else
          takes l = [(b, n, cappedWait b ovr use)] /\
          match Take b n (cappedWait b ovr use) bc' with
          | ((_, false), _) =>
              ev = NewTimedOutEvent namespace name (Dynamic b) n /\
              r = (0, Dynamic b, Some (newError ER_TIMEOUT))
          | ((wt, true), _) =>
              ev = NewTokensServedEvent namespace name (Dynamic b) n wt /\
              r = (wt, Dynamic b, None)
          end
    end.
Proof.
  intros Hbc. open_world w. subst. run.
  destruct (FindBucket bc namespace name) as [[[b|] [e|]] bc']; cbn.
  1, 3: destruct producer0; cbn; do 4 eexists;
        (split; [reflexivity|]); cbn; (split; [reflexivity|]);
        (split; [reflexivity|]); repeat split.
  2: destruct producer0; cbn; do 4 eexists;
     (split; [reflexivity|]); cbn; (split; [reflexivity|]);
     (split; [reflexivity|]); repeat split.
  destruct ((MaxTokensPerRequest (Config b) <? n)
            && (MaxTokensPerRequest (Config b) >? 0)); cbn.
  - destruct producer0; cbn; do 4 eexists;
    (split; [reflexivity|]); cbn; (split; [reflexivity|]);
    (split; [reflexivity|]); repeat split.
  - match goal with |- context [Take b n ?d bc'] =>
      destruct (Take b n d bc') as [[wt [|]] bc''] end; cbn;
    destruct producer0; cbn; do 4 eexists;
    (split; [reflexivity|]); cbn; rewrite <- app_assoc;
    (split; [reflexivity|]); cbn;
    (split; [reflexivity|]); repeat split.
Qed.

(** The copy in src/server.go, in the same form: the wait handed to
    [Take] is [plainWait], and the result has no dynamic flag. *)
Lemma ServerGo_Allow_cases
    (namespace name : string) (n ovr : Z) (use : bool) (w : World) (bc : Container) :
  bucketContainer (sv w) = Some bc ->
  exists r w' l ev,
    ServerGo.Allow namespace name n ovr use w = Ret (r, w') /\
    calls w' = (calls w ++ l)%list /\
    emitted l = [ev] /\
    match FindBucket bc namespace name with
    | ((_, Some _), _) =>
        ev = NewBucketMissedEvent namespace name true /\
        r = (0, Some (newError ER_TOO_MANY_BUCKETS)) /\
        takes l = []
    | ((None, None), _) =>
        ev = NewBucketMissedEvent namespace name false /\
        r = (0, Some (newError ER_NO_BUCKET)) /\
        takes l = []
    | ((Some b, None), bc') =>
        if (MaxTokensPerRequest (Config b) <? n)
           && (MaxTokensPerRequest (Config b) >? 0)
        then
          ev = NewTooManyTokensRequestedEvent namespace name (Dynamic b) n /\
          r = (0, Some (newError ER_TOO_MANY_TOKENS_REQUESTED)) /\
          takes l = []
        else
          takes l = [(b, n, plainWait b ovr use)] /\
          match Take b n (plainWait b ovr use) bc' with
          | ((_, false), _) =>
              ev = NewTimedOutEvent namespace name (Dynamic b) n /\
              r = (0, Some (newError ER_TIMEOUT))
          | ((wt, true), _) =>
              ev = NewTokensServedEvent namespace name (Dynamic b) n wt /\
              r = (wt, None)
          end
    end.
Proof.
  intros Hbc. open_world w. subst. run.
  destruct (FindBucket bc namespace name) as [[[b|] [e|]] bc']; cbn.
  1, 3: destruct producer0; cbn; do 4 eexists;
        (split; [reflexivity|]); cbn; (split; [reflexivity|]);
        (split; [reflexivity|]); repeat split.
  2: destruct producer0; cbn; do 4 eexists;
     (split; [reflexivity|]); cbn; (split; [reflexivity|]);
     (split; [reflexivity|]); repeat split.
  destruct ((MaxTokensPerRequest (Config b) <? n)
            && (MaxTokensPerRequest (Config b) >? 0)); cbn.
  - destruct producer0; cbn; do 4 eexists;
    (split; [reflexivity|]); cbn; (split; [reflexivity|]);
    (split; [reflexivity|]); repeat split.
  - match goal with |- context [Take b n ?d bc'] =>
      destruct (Take b n d bc') as [[wt [|]] bc''] end; cbn;
    destruct producer0; cbn; do 4 eexists;
    (split; [reflexivity|]); cbn; rewrite <- app_assoc;
    (split; [reflexivity|]); cbn;
    (split; [reflexivity|]); repeat split.
Qed.

(** A call on a server without a container does not return. *)
Lemma Allow_nil_container
    (namespace name : string) (n ovr : Z) (use : bool) (w : World) :
  bucketContainer (sv w) = None ->
  Server.Allow namespace name n ovr use w = Panic /\
  ServerGo.Allow namespace name n ovr use w = Panic.
Proof.
  intros H. open_world w. subst. split; reflexivity.
Qed.

(** The later copy hands [Take] the capped wait: the override counts only
    when it is set and strictly below the bucket's [wait_timeout_millis]. *)
Lemma Server_Allow_maxWait
    (namespace name : string) (n ovr : Z) (use : bool) (w w' : World)
    (r : Duration * bool * option error) :
  Server.Allow namespace name n ovr use w = Ret (r, w') ->
  exists l, calls w' = (calls w ++ l)%list /\
    forall b m d, In (b, m, d) (takes l) -> m = n /\ d = cappedWait b ovr use.
Proof.
  intros H.
  destruct (bucketContainer (sv w)) as [bc|] eqn:Hbc.
  2: { destruct (Allow_nil_container namespace name n ovr use w Hbc) as [E _].
       rewrite E in H. discriminate. }
  destruct (Server_Allow_cases namespace name n ovr use w bc Hbc)
    as (r0 & w0 & l & ev & Hrun & Hcalls & _ & Hcase).
  rewrite Hrun in H. injection H as <- <-.
  exists l. split; [exact Hcalls|]. intros b m d Hin.
  destruct (FindBucket bc namespace name) as [[[b0|] [e|]] bc'].
  - destruct Hcase as (_ & _ & Ht). rewrite Ht in Hin. destruct Hin.
  - destruct ((MaxTokensPerRequest (Config b0) <? n)
              && (MaxTokensPerRequest (Config b0) >? 0)).
    + destruct Hcase as (_ & _ & Ht). rewrite Ht in Hin. destruct Hin.
    + destruct Hcase as (Ht & _). rewrite Ht in Hin.
      destruct Hin as [Hin|[]]. injection Hin as <- <- <-. split; reflexivity.
  - destruct Hcase as (_ & _ & Ht). rewrite Ht in Hin. destruct Hin.
  - destruct Hcase as (_ & _ & Ht). rewrite Ht in Hin. destruct Hin.
Qed.

(** src/server.go hands [Take] the override whenever it is set. *)
Lemma ServerGo_Allow_maxWait
    (namespace name : string) (n ovr : Z) (use : bool) (w w' : World)
    (r : Duration * option error) :
  ServerGo.Allow namespace name n ovr use w = Ret (r, w') ->
  exists l, calls w' = (calls w ++ l)%list /\
    forall b m d, In (b, m, d) (takes l) -> m = n /\ d = plainWait b ovr use.
Proof.
  intros H.
  destruct (bucketContainer (sv w)) as [bc|] eqn:Hbc.
  2: { destruct (Allow_nil_container namespace name n ovr use w Hbc) as [_ E].
       rewrite E in H. discriminate. }
  destruct (ServerGo_Allow_cases namespace name n ovr use w bc Hbc)
    as (r0 & w0 & l & ev & Hrun & Hcalls & _ & Hcase).
  rewrite Hrun in H. injection H as <- <-.
  exists l. split; [exact Hcalls|]. intros b m d Hin.
  destruct (FindBucket bc namespace name) as [[[b0|] [e|]] bc'].
  - destruct Hcase as (_ & _ & Ht). rewrite Ht in Hin. destruct Hin.
  - destruct ((MaxTokensPerRequest (Config b0) <? n)
              && (MaxTokensPerRequest (Config b0) >? 0)).
    + destruct Hcase as (_ & _ & Ht). rewrite Ht in Hin. destruct Hin.
    + destruct Hcase as (Ht & _). rewrite Ht in Hin.
      destruct Hin as [Hin|[]]. injection Hin as <- <- <-. split; reflexivity.
  - destruct Hcase as (_ & _ & Ht). rewrite Ht in Hin. destruct Hin.
  - destruct Hcase as (_ & _ & Ht). rewrite Ht in Hin. destruct Hin.
Qed.

(** C2, amended. On an installed container every call to [Allow] returns,
    emits one event, and result and event correspond in one of five ways,
    decided by what resolution and [Take] return: a creation error gives
    BUCKET_MISSED(true) and TOO_MANY_BUCKETS; a nil bucket gives
    BUCKET_MISSED(false) and NO_BUCKET; a request above a positive
    [max_tokens_per_request] gives TOO_MANY_TOKENS_REQUESTED twice; a
    failed [Take] gives TIMED_OUT and TIMEOUT with a zero wait; a
    successful [Take] gives TOKENS_SERVED and [(wait, b.Dynamic(), nil)]. *)
Theorem Allow_result_and_event
    (namespace name : string) (n ovr : Z) (use : bool) (w : World) (bc : Container) :
  bucketContainer (sv w) = Some bc ->
  exists r w' ev,
    Server.Allow namespace name n ovr use w = Ret (r, w') /\
    emitted (calls w') = (emitted (calls w) ++ [ev])%list /\
    match FindBucket bc namespace name with
    | ((_, Some _), _) =>
        ev = NewBucketMissedEvent namespace name true /\
        r = (0, true, Some (newError ER_TOO_MANY_BUCKETS))
    | ((None, None), _) =>
        ev = NewBucketMissedEvent namespace name false /\
        r = (0, false, Some (newError ER_NO_BUCKET))
    | ((Some b, None), bc') =>
        if (MaxTokensPerRequest (Config b) <? n)
           && (MaxTokensPerRequest (Config b) >? 0)
        then
          ev = NewTooManyTokensRequestedEvent namespace name (Dynamic b) n /\
          r = (0, Dynamic b, Some (newError ER_TOO_MANY_TOKENS_REQUESTED))
        else
          match Take b n (cappedWait b ovr use) bc' with
          | ((_, false), _) =>
              ev = NewTimedOutEvent namespace name (Dynamic b) n /\
              r = (0, Dynamic b, Some (newError ER_TIMEOUT))
          | ((wt, true), _) =>
              ev = NewTokensServedEvent namespace name (Dynamic b) n wt /\
              r = (wt, Dynamic b, None)
          end
    end.
Proof.
  intros Hbc.
  destruct (Server_Allow_cases namespace name n ovr use w bc Hbc)
    as (r & w' & l & ev & Hrun & Hcalls & Hev & Hcase).
  exists r, w', ev. split; [exact Hrun|]. split.
  { rewrite Hcalls, emitted_app, Hev. reflexivity. }
  destruct (FindBucket bc namespace name) as [[[b|] [e|]] bc'].
  - destruct Hcase as (? & ? & _). split; assumption.
  - destruct ((MaxTokensPerRequest (Config b) <? n)
              && (MaxTokensPerRequest (Config b) >? 0)).
    + destruct Hcase as (? & ? & _). split; assumption.
    + destruct Hcase as (_ & Hcase). exact Hcase.
  - destruct Hcase as (? & ? & _). split; assumption.
  - destruct Hcase as (? & ? & _). split; assumption.
Qed.

(** [Emit] always returns, and without a registered producer it leaves
    the server as it is. *)
Lemma Emit_total (e : Event) (w : World) :
  exists w', Emit e w = Ret (tt, w') /\
    calls w' = (calls w ++ [CEmit e])%list /\
    (producer (sv w) = None -> sv w' = sv w).
Proof.
  open_world w. run. destruct producer0; cbn; eexists;
    (split; [reflexivity|]); (split; [reflexivity|]); intros H;
    [discriminate | reflexivity].
Qed.

(** C10. A call to [Allow] on an installed container hands exactly one
    event to [Emit], of kind BUCKET_MISSED, TOO_MANY_TOKENS_REQUESTED,
    TIMED_OUT or TOKENS_SERVED, whichever path it takes; [Emit] returns
    for every event and leaves the server untouched when no producer is
    registered; and what [Allow] returns does not depend on the producer
    (registered or not, in whatever state). *)
Theorem Allow_emits_exactly_once
    (namespace name : string) (n ovr : Z) (use : bool) (w : World) (bc : Container) :
  bucketContainer (sv w) = Some bc ->
  (exists r w' l ev,
      Server.Allow namespace name n ovr use w = Ret (r, w') /\
      calls w' = (calls w ++ l)%list /\
      emitted l = [ev] /\
      In (EventType_of ev)
         [BUCKET_MISSED; TOO_MANY_TOKENS_REQUESTED; TIMED_OUT; TOKENS_SERVED] /\
      forall p, exists w'',
        Server.Allow namespace name n ovr use (with_producer p w) = Ret (r, w'') /\
        bucketContainer (sv w'') = bucketContainer (sv w')) /\
  (forall e w0, exists w1,
      Emit e w0 = Ret (tt, w1) /\ (producer (sv w0) = None -> sv w1 = sv w0)).
Proof.
  intros Hbc. split.
  - destruct (Server_Allow_cases namespace name n ovr use w bc Hbc)
      as (r & w' & l & ev & Hrun & Hcalls & Hev & _).
    exists r, w', l, ev. repeat (split; [assumption|]). split.
    { destruct ev; simpl; tauto. }
    intros p. clear Hcalls Hev. open_world w. subst. run.
    destruct (FindBucket bc namespace name) as [[[b|] [e|]] bc']; cbn in *.
    1, 3, 4: destruct producer0, p; cbn in *; injection Hrun as <- <-;
             eexists; split; reflexivity.
    destruct ((MaxTokensPerRequest (Config b) <? n)
              && (MaxTokensPerRequest (Config b) >? 0)); cbn in *.
    + destruct producer0, p; cbn in *; injection Hrun as <- <-;
        eexists; split; reflexivity.
    + match goal with |- context [Take b n ?d bc'] =>
        destruct (Take b n d bc') as [[wt [|]] bc''] end; cbn in *;
      destruct producer0, p; cbn in *; injection Hrun as <- <-;
        eexists; split; reflexivity.
  - intros e w0. destruct (Emit_total e w0) as (w1 & H1 & _ & H2).
    exists w1. split; assumption.
Qed.

End AllowFacts.

Section ConfigFacts.
Context {BA : BucketAPI} {PA : ProducerAPI} {SA : ConfigAPI}.

Lemma wrap_in_range (bits z : Z) :
  0 < bits -> - 2 ^ (bits - 1) <= z < 2 ^ (bits - 1) -> wrap bits z = z.
Proof.
  intros Hb Hz. unfold wrap.
  assert (E : 2 ^ bits = 2 * 2 ^ (bits - 1)).
  { replace bits with (Z.succ (bits - 1)) at 1 by lia.
    rewrite Z.pow_succ_r by lia. reflexivity. }
  rewrite E. rewrite Z.mod_small by lia. lia.
Qed.

Lemma persisted_app (l1 l2 : list Call) :
  persisted (l1 ++ l2) = (persisted l1 ++ persisted l2)%list.
Proof.
  induction l1 as [|c l1 IH]; [reflexivity|].
  destruct c; simpl; rewrite IH; reflexivity.
Qed.

Lemma installs_app (l1 l2 : list Call) :
  installs (l1 ++ l2) = (installs l1 ++ installs l2)%list.
Proof.
  induction l1 as [|c l1 IH]; [reflexivity|].
  destruct c; simpl; rewrite IH; reflexivity.
Qed.

(** The later copy: a mutation that returns no error has handed the
    persister exactly one reader, the serialization of the clone with
    defaults applied and then stamped with the user, the time and the
    version read at clone time plus one (in the field's arithmetic). *)
Lemma Server_updateConfig_success
    (versionBits : Z) (user : string) (now : Z)
    (updater : ServiceConfig -> ServiceConfig * option error)
    (w w' : World) (cfg : ServiceConfig) :
  cfgs (sv w) = Some cfg ->
  Server.updateConfig versionBits user now updater w = Ret (None, w') ->
  exists edited r,
    updater cfg = (edited, None) /\
    Marshal (stamped versionBits user now (Version cfg) edited) = (r, None) /\
    calls w' = (calls w ++ [CPersistAndNotify r])%list /\
    PersistAndNotify (persister (sv w)) r = (None, persister (sv w')) /\
    User (stamped versionBits user now (Version cfg) edited) = user /\
    Date (stamped versionBits user now (Version cfg) edited) = now /\
    Version (stamped versionBits user now (Version cfg) edited)
      = wrap versionBits (Version cfg + 1) /\
    (0 < versionBits ->
     - 2 ^ (versionBits - 1) <= Version cfg + 1 < 2 ^ (versionBits - 1) ->
     Version (stamped versionBits user now (Version cfg) edited) = Version cfg + 1).
Proof.
  intros Hcfg Hrun. open_world w. subst. run.
  destruct (updater cfg) as [edited [err|]]; [discriminate|].
  fold (stamped versionBits user now (Version cfg) edited) in Hrun.
  destruct (Marshal (stamped versionBits user now (Version cfg) edited))
    as [r [e|]] eqn:HM; [discriminate|].
  cbn in Hrun.
  destruct (PersistAndNotify persister0 r) as [[e|] p] eqn:HP;
    cbn in Hrun; [discriminate|].
  injection Hrun as <-.
  exists edited, r. cbn. repeat split; try reflexivity; try assumption.
  intros Hb Hr. apply wrap_in_range; assumption.
Qed.

(** src/server.go: a mutation that returns no error has handed the
    persister the serialization of the clone exactly as the updater left
    it. *)
Lemma ServerGo_updateConfig_success
    (updater : ServiceConfig -> ServiceConfig * option error)
    (w w' : World) (cfg : ServiceConfig) :
  cfgs (sv w) = Some cfg ->
  ServerGo.updateConfig updater w = Ret (None, w') ->
  exists edited r,
    updater cfg = (edited, None) /\
    Marshal edited = (r, None) /\
    calls w' = (calls w ++ [CPersistAndNotify r])%list.
Proof.
  intros Hcfg Hrun. open_world w. subst. run.
  destruct (updater cfg) as [edited [err|]]; [discriminate|].
  destruct (Marshal edited) as [r [e|]] eqn:HM; [discriminate|].
  cbn in Hrun.
  destruct (PersistAndNotify persister0 r) as [[e|] p] eqn:HP;
    cbn in Hrun; [discriminate|].
  injection Hrun as <-.
  exists edited, r. cbn. repeat split; try reflexivity; assumption.
Qed.

(** C5. When the updater returns an error, or the serialization of the
    mutated clone does, [updateConfig] returns that error and nothing
    else happens: no call to [PersistAndNotify] (no call at all), and
    the persister, the live config and the container are the ones from
    before.  Both copies. *)
Theorem updateConfig_error_is_atomic
    (versionBits : Z) (user : string) (now : Z)
    (updater : ServiceConfig -> ServiceConfig * option error)
    (w : World) (cfg : ServiceConfig) (err : error) :
  cfgs (sv w) = Some cfg ->
  (snd (updater cfg) = Some err \/
   snd (updater cfg) = None /\
   snd (Marshal (stamped versionBits user now (Version cfg) (fst (updater cfg))))
     = Some err ->
   Server.updateConfig versionBits user now updater w = Ret (Some err, w)) /\
  (snd (updater cfg) = Some err \/
   snd (updater cfg) = None /\ snd (Marshal (fst (updater cfg))) = Some err ->
   ServerGo.updateConfig updater w = Ret (Some err, w)).
Proof.
  intros Hcfg. open_world w. subst. run. unfold stamped.
  destruct (updater cfg) as [edited [e0|]]; cbn; split.
  - intros [H|[H _]]; [injection H as <-; reflexivity | discriminate].
  - intros [H|[H _]]; [injection H as <-; reflexivity | discriminate].
  - intros [H|[_ H]]; [discriminate|].
    destruct (Marshal _) as [r [e|]]; cbn in H; [|discriminate].
    injection H as <-. reflexivity.
  - intros [H|[_ H]]; [discriminate|].
    destruct (Marshal edited) as [r [e|]]; cbn in H; [|discriminate].
    injection H as <-. reflexivity.
Qed.

(** What a reload does, in the later copy: it always returns; a failed
    read or a failed unmarshal is logged and the server stays as it is;
    otherwise the new config and a container built from it are put in
    place. *)
Lemma Server_readUpdatedConfig_cases (w : World) :
  exists w',
    Server.readUpdatedConfig w = Ret (tt, w') /\
    match ReadPersistedConfig (persister (sv w)) with
    | (_, Some _) =>
        sv w' = sv w /\
        calls w' = (calls w ++ [CLog "error reading persisted config"])%list
    | (configReader, None) =>
        match Unmarshal configReader with
        | inr _ =>
            sv w' = sv w /\
            calls w' = (calls w ++ [CLog "error reading marshalled config"])%list
        | inl newConfig =>
            sv w' = set_bucketContainer
                      (Some (NewBucketContainer (Some newConfig)))
                      (set_cfgs (Some newConfig) (sv w)) /\
            calls w' = (calls w ++ [CFactoryInit (Some newConfig)])%list
        end
    end.
Proof.
  open_world w. run.
  destruct (ReadPersistedConfig persister0) as [configReader [e|]]; cbn.
  - eexists. split; [reflexivity|]. split; reflexivity.
  - destruct (Unmarshal configReader) as [newConfig|[q e]]; cbn;
      eexists; (split; [reflexivity|]); split; reflexivity.
Qed.

(** What a round of the listener does in src/server.go: whatever the
    read and the unmarshal return, [createBucketContainer] runs and
    replaces the live config and container. *)
Lemma ServerGo_configListener_round_installs (w : World) :
  exists w' c,
    ServerGo.configListener_round w = Ret (tt, w') /\
    installs (calls w') = (installs (calls w) ++ [c])%list /\
    cfgs (sv w') = c /\
    bucketContainer (sv w') = Some (NewBucketContainer c) /\
    c = match Unmarshal (fst (ReadPersistedConfig (persister (sv w)))) with
        | inl newConfig => Some newConfig
        | inr (q, _) => q
        end.
Proof.
  open_world w. run.
  destruct (ReadPersistedConfig persister0) as [configReader [e|]]; cbn;
    destruct (Unmarshal configReader) as [newConfig|[q e']]; cbn;
    do 2 eexists; (split; [reflexivity|]); cbn;
    rewrite !installs_app; cbn; rewrite ?app_nil_r; repeat split.
Qed.

(** C6. [updateConfig] does not install anything: whatever it returns,
    the live config and the live container are the ones from before and
    [createBucketContainer] has not run; on success the only thing that
    happened is the call to [PersistAndNotify].  The install is the
    listener's: a round of [configListener] that receives a signal and
    reads and unmarshals a config puts that config and a container built
    from it in place. *)
Theorem updateConfig_does_not_install
    (versionBits : Z) (user : string) (now : Z)
    (updater : ServiceConfig -> ServiceConfig * option error)
    (w w' : World) (r : option error) :
  Server.updateConfig versionBits user now updater w = Ret (r, w') ->
  cfgs (sv w') = cfgs (sv w) /\
  bucketContainer (sv w') = bucketContainer (sv w) /\
  (exists l, calls w' = (calls w ++ l)%list /\ installs l = [] /\
             (l = [] \/ exists rd, l = [CPersistAndNotify rd])) /\
  (forall w1 p configReader newConfig,
      receive (persister (sv w1)) = Some p ->
      ReadPersistedConfig p = (configReader, None) ->
      Unmarshal configReader = inl newConfig ->
      exists w2,
        Server.configListener 1 w1 = Ret (tt, w2) /\
        cfgs (sv w2) = Some newConfig /\
        bucketContainer (sv w2) = Some (NewBucketContainer (Some newConfig)) /\
        installs (calls w2) = (installs (calls w1) ++ [Some newConfig])%list).
Proof.
  intros Hrun. repeat apply conj.
  - open_world w. run. destruct cfgs0 as [cfg|]; [|discriminate].
    destruct (updater cfg) as [edited [e0|]]; cbn in Hrun.
    { injection Hrun as <- <-. reflexivity. }
    destruct (Marshal _) as [rd [e|]]; cbn in Hrun.
    { injection Hrun as <- <-. reflexivity. }
    destruct (PersistAndNotify persister0 rd) as [e p]; cbn in Hrun.
    injection Hrun as <- <-. reflexivity.
  - open_world w. run. destruct cfgs0 as [cfg|]; [|discriminate].
    destruct (updater cfg) as [edited [e0|]]; cbn in Hrun.
    { injection Hrun as <- <-. reflexivity. }
    destruct (Marshal _) as [rd [e|]]; cbn in Hrun.
    { injection Hrun as <- <-. reflexivity. }
    destruct (PersistAndNotify persister0 rd) as [e p]; cbn in Hrun.
    injection Hrun as <- <-. reflexivity.
  - open_world w. run. destruct cfgs0 as [cfg|]; [|discriminate].
    destruct (updater cfg) as [edited [e0|]]; cbn in Hrun.
    { injection Hrun as <- <-. exists []. cbn. rewrite app_nil_r. auto. }
    destruct (Marshal _) as [rd [e|]]; cbn in Hrun.
    { injection Hrun as <- <-. exists []. cbn. rewrite app_nil_r. auto. }
    destruct (PersistAndNotify persister0 rd) as [e p]; cbn in Hrun.
    injection Hrun as <- <-. exists [CPersistAndNotify rd]. cbn.
    repeat split. right. exists rd. reflexivity.
  - clear. intros w1 p configReader newConfig Hrecv Hread Hun.
    open_world w1. cbn [Server.configListener]. run.
    rewrite Hrecv. cbn. rewrite Hread. cbn. rewrite Hun. cbn.
    eexists. split; [reflexivity|]. cbn. rewrite installs_app. cbn.
    repeat split.
Qed.

(** The other methods do not install either: [Allow] keeps the live
    config and never runs [createBucketContainer]. *)
Lemma Allow_does_not_install
    (namespace name : string) (n ovr : Z) (use : bool) (w w' : World)
    (r : Duration * bool * option error) :
  Server.Allow namespace name n ovr use w = Ret (r, w') ->
  cfgs (sv w') = cfgs (sv w) /\ installs (calls w') = installs (calls w).
Proof.
  intros Hrun. open_world w. run.
  destruct bucketContainer0 as [bc|]; [|discriminate]. cbn in Hrun.
  destruct (FindBucket bc namespace name) as [[[b|] [e|]] bc']; cbn in Hrun.
  1, 3, 4: destruct producer0; cbn in Hrun; injection Hrun as <- <-; cbn;
           rewrite installs_app; cbn; rewrite app_nil_r; split; reflexivity.
  destruct ((MaxTokensPerRequest (Config b) <? n)
            && (MaxTokensPerRequest (Config b) >? 0)); cbn in Hrun.
  - destruct producer0; cbn in Hrun; injection Hrun as <- <-; cbn;
      rewrite installs_app; cbn; rewrite app_nil_r; split; reflexivity.
  - match type of Hrun with context [Take b n ?d bc'] =>
      destruct (Take b n d bc') as [[wt [|]] bc''] end; cbn in Hrun;
    destruct producer0; cbn in Hrun; injection Hrun as <- <-; cbn;
      rewrite !installs_app; cbn; rewrite !app_nil_r; split; reflexivity.
Qed.

(** Starting (or stopping) the endpoints only adds calls. *)
Lemma forEach_calls (f : string -> list Call) (body : string -> M unit)
    (l : list string) :
  (forall x w, body x w = Ret (tt, mkWorld (sv w) (calls w ++ f x))) ->
  forall w, forEach l body w = Ret (tt, mkWorld (sv w) (calls w ++ flat_map f l)).
Proof.
  intros Hbody. induction l as [|x l IH]; intros w.
  - cbn. unfold ret. rewrite app_nil_r. destruct w; reflexivity.
  - cbn [forEach flat_map]. unfold bind. rewrite Hbody, IH. cbn.
    rewrite <- app_assoc. reflexivity.
Qed.

(** C8, amended. [Start] blocks while no signal is pending on the
    watcher channel.  When it returns, it returns [(true, nil)] with the
    server started, the first signal consumed and one reload attempted,
    before the listener is spawned and the endpoints are started: when
    the read and the unmarshal succeeded the reload has installed the
    config and a container built from it; when either failed it has
    logged the error (that one log line is the reload's only call) and
    the config and the container are what they were before.  A call to
    [Allow] on a server without a container does not return. *)
Theorem Start_returns_after_first_reload (w : World) :
  (receive (persister (sv w)) = None -> Server.Start w = Blocked) /\
  (forall r w', Server.Start w = Ret (r, w') ->
     r = (true, None) /\
     currentStatus (sv w') = Started /\
     exists p c,
       receive (persister (sv w)) = Some p /\ persister (sv w') = p /\
       calls w' = (calls w ++ c :: CGo_configListener
                     :: flat_map (fun e => [CRpcInit e; CRpcStart e])
                                 (rpcEndpoints (sv w)))%list /\
       match ReadPersistedConfig p with
       | (configReader, None) =>
           match Unmarshal configReader with
           | inl newConfig =>
               c = CFactoryInit (Some newConfig) /\
               cfgs (sv w') = Some newConfig /\
               bucketContainer (sv w')
                 = Some (NewBucketContainer (Some newConfig))
           | inr _ =>
               c = CLog "error reading marshalled config" /\
               cfgs (sv w') = cfgs (sv w) /\
               bucketContainer (sv w') = bucketContainer (sv w)
           end
       | (_, Some _) =>
           c = CLog "error reading persisted config" /\
           cfgs (sv w') = cfgs (sv w) /\
           bucketContainer (sv w') = bucketContainer (sv w)
       end) /\
  (forall namespace name n ovr use w0,
     bucketContainer (sv w0) = None ->
     Server.Allow namespace name n ovr use w0 = Panic).
Proof.
  repeat apply conj.
  - intros Hrecv. open_world w. run. rewrite Hrecv. reflexivity.
  - intros r w' Hrun. open_world w. run.
    destruct (receive persister0) as [p|] eqn:Hrecv; [|discriminate].
    cbn in Hrun.
    destruct (ReadPersistedConfig p) as [configReader [e|]] eqn:Hread;
      cbn in Hrun.
    + rewrite (forEach_calls (fun r => [CRpcInit r; CRpcStart r])) in Hrun
        by (intros x [s0 l0]; cbn; rewrite <- app_assoc; reflexivity).
      cbn in Hrun. injection Hrun as <- <-. cbn.
      repeat split. exists p. eexists. rewrite Hread.
      rewrite <- !app_assoc. cbn. repeat split.
    + destruct (Unmarshal configReader) as [newConfig|[q e]] eqn:Hun;
        cbn in Hrun;
        rewrite (forEach_calls (fun r => [CRpcInit r; CRpcStart r])) in Hrun
          by (intros x [s0 l0]; cbn; rewrite <- app_assoc; reflexivity);
        cbn in Hrun; injection Hrun as <- <-; cbn;
        repeat split; exists p; eexists; rewrite Hread, ?Hun;
        rewrite <- !app_assoc; cbn; repeat split.
  - intros namespace name n ovr use w0 H.
    apply (Allow_nil_container namespace name n ovr use w0 H).
Qed.

(** src/server.go: [Start] never waits for a signal and never reloads;
    it returns with the config and the container it found. *)
Lemma ServerGo_Start_does_not_wait (w : World) :
  exists w', ServerGo.Start w = Ret ((true, None), w') /\
    cfgs (sv w') = cfgs (sv w) /\
    bucketContainer (sv w') = bucketContainer (sv w) /\
    persister (sv w') = persister (sv w).
Proof.
  open_world w. run.
  rewrite (forEach_calls (fun r => [CRpcInit r; CRpcStart r]))
    by (intros x [s0 l0]; cbn; rewrite <- app_assoc; reflexivity).
  cbn. eexists. split; [reflexivity|]. repeat split.
Qed.

(** *** The history *)

Lemma sort_insert_perm (c : ServiceConfig) (l : list ServiceConfig) :
  Permutation (c :: l) (Server.sort_insert c l).
Proof.
  induction l as [|x l IH]; cbn.
  - apply Permutation_refl.
  - destruct (Server.SortedConfigs_Less x c).
    + eapply perm_trans; [apply perm_swap|]. apply perm_skip, IH.
    + apply Permutation_refl.
Qed.

Lemma sort_Sort_perm (l : list ServiceConfig) :
  Permutation l (Server.sort_Sort l).
Proof.
  induction l as [|x l IH]; cbn.
  - apply perm_nil.
  - eapply perm_trans; [apply perm_skip, IH|]. apply sort_insert_perm.
Qed.

Lemma sort_insert_sorted (c : ServiceConfig) (l : list ServiceConfig) :
  StronglySorted descending l ->
  StronglySorted descending (Server.sort_insert c l).
Proof.
  induction l as [|x l IH]; intros Hs; cbn.
  - constructor; constructor.
  - inversion Hs as [|? ? Hs' Hall]; subst.
    unfold Server.SortedConfigs_Less.
    destruct (Version c <? Version x) eqn:E.
    + apply Z.ltb_lt in E. constructor; [apply IH; exact Hs'|].
      apply (Permutation_Forall (sort_insert_perm c l)).
      constructor; [unfold descending; lia | exact Hall].
    + apply Z.ltb_ge in E. constructor; [exact Hs|].
      constructor; [exact E|].
      eapply Forall_impl; [|exact Hall].
      unfold descending. intros a Ha. lia.
Qed.

Lemma sort_Sort_sorted (l : list ServiceConfig) :
  StronglySorted descending (Server.sort_Sort l).
Proof.
  induction l as [|x l IH]; cbn.
  - constructor.
  - apply sort_insert_sorted, IH.
Qed.

Lemma unmarshalConfigs_all (configs : list Reader) (l : list ServiceConfig) :
  Forall2 (fun rd c => Unmarshal rd = inl c) configs l ->
  Server.unmarshalConfigs configs = inl l.
Proof.
  induction 1 as [|rd c configs l H _ IH]; cbn.
  - reflexivity.
  - rewrite H, IH. reflexivity.
Qed.

Lemma unmarshalConfigs_some_fails (configs : list Reader) :
  (exists rd q e, In rd configs /\ Unmarshal rd = inr (q, e)) ->
  exists e, Server.unmarshalConfigs configs = inr e.
Proof.
  induction configs as [|x configs IH]; intros (rd & q & e & Hin & Hun).
  - destruct Hin.
  - cbn. destruct (Unmarshal x) as [c|[q' e']] eqn:Hx.
    + destruct Hin as [->|Hin]; [congruence|].
      destruct IH as [e0 He0]; [exists rd, q, e; auto|].
      rewrite He0. exists e0. reflexivity.
    + exists e'. reflexivity.
Qed.

(** The loop stops at the first element that does not unmarshal, with
    that element's error. *)
Lemma unmarshalConfigs_first_error
    (before after : list Reader) (bad : Reader)
    (q : option ServiceConfig) (e : error) :
  Forall (fun rd => exists c, Unmarshal rd = inl c) before ->
  Unmarshal bad = inr (q, e) ->
  Server.unmarshalConfigs (before ++ bad :: after) = inr e.
Proof.
  intros Hbefore Hbad. induction Hbefore as [|rd rest [c Hc] _ IH]; cbn.
  - rewrite Hbad. reflexivity.
  - rewrite Hc, IH. reflexivity.
Qed.

(** An error of the loop is the error of an element of the history. *)
Lemma unmarshalConfigs_error_of_an_element (configs : list Reader) (e : error) :
  Server.unmarshalConfigs configs = inr e ->
  exists rd q, In rd configs /\ Unmarshal rd = inr (q, e).
Proof.
  induction configs as [|x configs IH]; cbn; [discriminate|].
  destruct (Unmarshal x) as [c|[q' e']] eqn:Hx.
  - destruct (Server.unmarshalConfigs configs) as [l|e0]; [discriminate|].
    intros H. injection H as <-.
    destruct (IH eq_refl) as (rd & q & Hin & Hun).
    exists rd, q. split; [right; exact Hin | exact Hun].
  - intros H. injection H as <-. exists x, q'. split; [left; reflexivity | exact Hx].
Qed.

(** C9. [HistoricalConfigs] always returns and changes nothing.  When
    reading the history fails it returns the nil slice and that error;
    when some element fails to unmarshal it returns the nil slice and
    the error of a failing element, namely of the first one in the
    order of the history; when every element unmarshals it returns the
    unmarshalled configs, all of them, ordered by version, descending. *)
Theorem HistoricalConfigs_sorted_by_version (w : World) :
  exists r,
    Server.HistoricalConfigs w = Ret (r, w) /\
    (forall e, snd (ReadHistoricalConfigs (persister (sv w))) = Some e ->
       r = (None, Some e)) /\
    (snd (ReadHistoricalConfigs (persister (sv w))) = None ->
     (exists rd q e, In rd (fst (ReadHistoricalConfigs (persister (sv w))))
                     /\ Unmarshal rd = inr (q, e)) ->
       exists rd q e,
         In rd (fst (ReadHistoricalConfigs (persister (sv w)))) /\
         Unmarshal rd = inr (q, e) /\
         r = (None, Some e)) /\
    (snd (ReadHistoricalConfigs (persister (sv w))) = None ->
     forall before bad after q e,
       fst (ReadHistoricalConfigs (persister (sv w)))
         = (before ++ bad :: after)%list ->
       Forall (fun rd => exists c, Unmarshal rd = inl c) before ->
       Unmarshal bad = inr (q, e) ->
       r = (None, Some e)) /\
    (snd (ReadHistoricalConfigs (persister (sv w))) = None ->
     forall l,
       Forall2 (fun rd c => Unmarshal rd = inl c)
               (fst (ReadHistoricalConfigs (persister (sv w)))) l ->
       exists sorted,
         r = (Some sorted, None) /\
         Permutation l sorted /\
         StronglySorted (fun a b => Version b <= Version a) sorted).
Proof.
  open_world w. run.
  destruct (ReadHistoricalConfigs persister0) as [configs [err|]]; cbn.
  - eexists. split; [reflexivity|]. split; [|split; [|split]].
    + intros e H. injection H as <-. reflexivity.
    + discriminate.
    + discriminate.
    + discriminate.
  - destruct (Server.unmarshalConfigs configs) as [l0|e0] eqn:Hu; cbn;
      eexists; (split; [reflexivity|]); (split; [discriminate|]);
      (split; [|split]).
    + intros _ Hf. apply unmarshalConfigs_some_fails in Hf.
      destruct Hf as [e He]. congruence.
    + intros _ before bad after q e Hc Hb Hbad. subst configs.
      rewrite (unmarshalConfigs_first_error before after bad q e Hb Hbad) in Hu.
      discriminate.
    + intros _ l1 Hall. apply unmarshalConfigs_all in Hall.
      assert (l0 = l1) by congruence. subst l0.
      exists (Server.sort_Sort l1). split; [reflexivity|]. split.
      * apply sort_Sort_perm.
      * apply sort_Sort_sorted.
    + intros _ _.
      destruct (unmarshalConfigs_error_of_an_element configs e0 Hu)
        as (rd & q & Hin & Hun).
      exists rd, q, e0. repeat split; assumption.
    + intros _ before bad after q e Hc Hb Hbad. subst configs.
      rewrite (unmarshalConfigs_first_error before after bad q e Hb Hbad) in Hu.
      injection Hu as <-. reflexivity.
    + intros _ l1 Hall. apply unmarshalConfigs_all in Hall. congruence.
Qed.

End ConfigFacts.

(** * More facts about the code *)

Ltac unset :=
  cbv [set_currentStatus set_bucketContainer set_producer set_cfgs
       set_persister set_eventQueueBufSize option_map] in *;
  cbn [sv calls currentStatus bucketContainer rpcEndpoints eventQueueBufSize
       producer cfgs persister fst snd] in *.

Ltac allow_cases bc namespace name b n :=
  destruct (FindBucket bc namespace name) as [[[b|] [?e|]] ?bc']; cbn in *;
  [ |
    destruct ((MaxTokensPerRequest (Config b) <? n)
              && (MaxTokensPerRequest (Config b) >? 0)) eqn:?Hcap; cbn in *;
    [ |
      match goal with
      | |- context [Take b n ?d ?c] =>
          destruct (Take b n d c) as [[?wt [|]] ?bc''] eqn:?HT
      | H : context [Take b n ?d ?c] |- _ =>
          destruct (Take b n d c) as [[?wt [|]] ?bc''] eqn:?HT
      end; cbn in * ]
  | | ].

Section MoreAllowFacts.
Context {BA : BucketAPI} {PA : ProducerAPI} {SA : ConfigAPI}.

(** The world a call to [Allow] leaves behind: the container that
    resolution and [Take] returned, the producer with the one event, and
    one or two more calls. *)
Lemma Server_Allow_shape
    (namespace name : string) (n ovr : Z) (use : bool) (w : World) (bc : Container) :
  bucketContainer (sv w) = Some bc ->
  exists r w' bcf l ev,
    Server.Allow namespace name n ovr use w = Ret (r, w') /\
    sv w' = set_producer (option_map (fun p => producerEmit p ev) (producer (sv w)))
              (set_bucketContainer (Some bcf) (sv w)) /\
    calls w' = (calls w ++ l)%list /\
    (l = [CEmit ev] \/ exists b d, l = [CTake b n d; CEmit ev]).
Proof.
  intros Hbc. open_world w. subst. run.
  allow_cases bc namespace name b n;
    destruct producer0; cbn; do 5 eexists;
    (split; [reflexivity|]); unset; (split; [reflexivity|]);
    rewrite <- ?app_assoc; (split; [reflexivity|]);
    first [ left; reflexivity | right; do 2 eexists; reflexivity ].
Qed.

(** X1. A call to [Allow] that returns has changed nothing of the server
    but the container's contents and the producer's queue: the status,
    the endpoints, the buffer size, the live config and the persister
    are the ones from before, a container is still installed, and a
    producer is registered afterwards exactly when one was before. *)
Theorem Allow_touches_container_and_producer_only
    (namespace name : string) (n ovr : Z) (use : bool) (w w' : World)
    (r : Duration * bool * option error) :
  Server.Allow namespace name n ovr use w = Ret (r, w') ->
  currentStatus (sv w') = currentStatus (sv w) /\
  rpcEndpoints (sv w') = rpcEndpoints (sv w) /\
  eventQueueBufSize (sv w') = eventQueueBufSize (sv w) /\
  cfgs (sv w') = cfgs (sv w) /\
  persister (sv w') = persister (sv w) /\
  bucketContainer (sv w') <> None /\
  (producer (sv w') = None <-> producer (sv w) = None).
Proof.
  intros Hrun.
  destruct (bucketContainer (sv w)) as [bc|] eqn:Hbc.
  2: { destruct (Allow_nil_container namespace name n ovr use w Hbc) as [E _].
       rewrite E in Hrun. discriminate. }
  destruct (Server_Allow_shape namespace name n ovr use w bc Hbc)
    as (r0 & w0 & bcf & l & ev & Hrun0 & Hsv & _).
  rewrite Hrun0 in Hrun. injection Hrun as <- <-. rewrite Hsv.
  destruct w as [[] ?]; cbn. repeat split; try discriminate.
  - destruct producer0; cbn; [discriminate | reflexivity].
  - destruct producer0; cbn; [discriminate | reflexivity].
Qed.

(** X2. The calls that [Allow] itself makes on an installed container
    are at most one [Take] followed by exactly one [Emit]: the event is
    handed over last, after [Take] has returned.  [Take] is called
    exactly when the call ends in success or in TIMEOUT, and never when
    it ends in NO_BUCKET, TOO_MANY_BUCKETS or
    TOO_MANY_TOKENS_REQUESTED. *)
Theorem Allow_emits_last_and_takes_at_most_once
    (namespace name : string) (n ovr : Z) (use : bool) (w : World)
    (bc : Container) :
  bucketContainer (sv w) = Some bc ->
  exists r w' l ev,
    Server.Allow namespace name n ovr use w = Ret (r, w') /\
    calls w' = (calls w ++ l)%list /\
    ((l = [CEmit ev] /\
      (snd r = Some (newError ER_NO_BUCKET) \/
       snd r = Some (newError ER_TOO_MANY_BUCKETS) \/
       snd r = Some (newError ER_TOO_MANY_TOKENS_REQUESTED))) \/
     (exists b d, l = [CTake b n d; CEmit ev] /\
      (snd r = None \/ snd r = Some (newError ER_TIMEOUT)))).
Proof.
  intros Hbc. open_world w. subst. run.
  allow_cases bc namespace name b n;
    destruct producer0; cbn; do 4 eexists;
    (split; [reflexivity|]); cbn; rewrite <- ?app_assoc;
    (split; [reflexivity|]);
    first [ left; split; [reflexivity|]; cbn; tauto
          | right; do 2 eexists; split; [reflexivity|]; cbn; tauto ].
Qed.

(** X3. [Allow] does not check the sign of the request: a request for
    zero or a negative number of tokens on a resolved bucket is never
    turned down by the per-request cap and is handed to [Take] as it
    is, so it ends in TIMEOUT or in success. *)
Theorem Allow_passes_non_positive_requests_to_Take
    (namespace name : string) (n ovr : Z) (use : bool) (w : World)
    (bc bc' : Container) (b : Bucket) :
  bucketContainer (sv w) = Some bc ->
  FindBucket bc namespace name = ((Some b, None), bc') ->
  n <= 0 ->
  exists r w' l,
    Server.Allow namespace name n ovr use w = Ret (r, w') /\
    calls w' = (calls w ++ l)%list /\
    takes l = [(b, n, cappedWait b ovr use)] /\
    (snd r = None \/ snd r = Some (newError ER_TIMEOUT)).
Proof.
  intros Hbc Hfind Hn.
  destruct (Server_Allow_cases namespace name n ovr use w bc Hbc)
    as (r & w' & l & ev & Hrun & Hcalls & _ & Hcase).
  exists r, w', l. split; [exact Hrun|]. split; [exact Hcalls|].
  rewrite Hfind in Hcase.
  assert (Hc : (MaxTokensPerRequest (Config b) <? n)
               && (MaxTokensPerRequest (Config b) >? 0) = false).
  { destruct (MaxTokensPerRequest (Config b) >? 0) eqn:Hpos.
    - apply Z.gtb_lt in Hpos. rewrite andb_true_r. apply Z.ltb_ge. lia.
    - apply andb_false_r. }
  rewrite Hc in Hcase. destruct Hcase as [Ht Hcase]. split; [exact Ht|].
  destruct (Take b n (cappedWait b ovr use) bc') as [[wt [|]] bc''];
    destruct Hcase as [_ ->]; cbn; auto.
Qed.


(** X5. [Allow] does not look at the lifecycle status: on a server that
    differs only in its status (stopped, say) the call returns the same
    result, makes the same calls and leaves the same container. *)
Theorem Allow_ignores_the_lifecycle_status
    (namespace name : string) (n ovr : Z) (use : bool) (w : World) (st : Status) :
  Server.Allow namespace name n ovr use (with_status st w)
  = match Server.Allow namespace name n ovr use w with
    | Ret (r, w') => Ret (r, with_status st w')
    | Panic => Panic
    | Blocked => Blocked
    end.
Proof.
  open_world w. unfold with_status. run.
  destruct bucketContainer0 as [bc|]; [|reflexivity]. cbn.
  allow_cases bc namespace name b n; destruct producer0; reflexivity.
Qed.

(** [Allow] on a server with another status and another record of
    earlier calls: the same result, the same container, the same new
    calls. *)
Lemma Allow_under_status_and_calls
    (namespace name : string) (n ovr : Z) (use : bool) (w w' : World)
    (r : Duration * bool * option error) (st : Status) (before : list Call) :
  Server.Allow namespace name n ovr use w = Ret (r, w') ->
  exists w2 l,
    Server.Allow namespace name n ovr use
      (mkWorld (set_currentStatus st (sv w)) before) = Ret (r, w2) /\
    bucketContainer (sv w2) = bucketContainer (sv w') /\
    calls w' = (calls w ++ l)%list /\
    calls w2 = (before ++ l)%list.
Proof.
  intros Hrun. open_world w. run. unset.
  destruct bucketContainer0 as [bc|]; [|discriminate]. cbn in *.
  allow_cases bc namespace name b n; destruct producer0; cbn in *;
    injection Hrun as <- <-; do 2 eexists;
    (split; [reflexivity|]); cbn; (split; [reflexivity|]);
    rewrite <- ?app_assoc; split; reflexivity.
Qed.

Lemma emitted_map_CRpcStop (l : list string) :
  emitted (map CRpcStop l) = [].
Proof.
  induction l as [|x xs IH]; cbn; auto.
Qed.

(** X6. [Stop] always returns [(true, nil)]: it sets the status to
    stopped and stops every endpoint once, in order, and that is all.
    The container, the config, the producer and the persister stay, the
    listener is not told, and a call to [Allow] after [Stop] returns what
    it would have returned before. *)
Theorem Stop_stops_the_endpoints_only (w : World) :
  Stop w = Ret ((true, None),
                mkWorld (set_currentStatus Stopped (sv w))
                        (calls w ++ map CRpcStop (rpcEndpoints (sv w)))) /\
  forall namespace name n ovr use r w',
    Server.Allow namespace name n ovr use w = Ret (r, w') ->
    exists w1 w2,
      Stop w = Ret ((true, None), w1) /\
      Server.Allow namespace name n ovr use w1 = Ret (r, w2) /\
      bucketContainer (sv w2) = bucketContainer (sv w') /\
      emitted (calls w2) = emitted (calls w').
Proof.
  assert (HS : Stop w = Ret ((true, None),
                mkWorld (set_currentStatus Stopped (sv w))
                        (calls w ++ map CRpcStop (rpcEndpoints (sv w))))).
  { open_world w. run.
    rewrite (forEach_calls (fun r => [CRpcStop r]))
      by (intros x [s0 l0]; reflexivity).
    cbn.
    replace (flat_map (fun r => [CRpcStop r]) rpcEndpoints0)
      with (map CRpcStop rpcEndpoints0); [reflexivity|].
    clear. induction rpcEndpoints0 as [|x xs IH]; cbn; [reflexivity|].
    rewrite IH. reflexivity. }
  split; [exact HS|].
  intros namespace name n ovr use r w' Hrun.
  destruct (Allow_under_status_and_calls namespace name n ovr use w w' r Stopped
              (calls w ++ map CRpcStop (rpcEndpoints (sv w))) Hrun)
    as (w2 & l & Hrun2 & Hbc & Hc & Hc2).
  eexists. exists w2. split; [exact HS|]. split; [exact Hrun2|].
  split; [exact Hbc|].
  rewrite Hc, Hc2, !emitted_app, emitted_map_CRpcStop, app_nil_r. reflexivity.
Qed.

Lemma wrap64_in_range (z : Z) :
  - 9223372036854775808 <= z < 9223372036854775808 -> wrap64 z = z.
Proof.
  intros H. unfold wrap64. apply wrap_in_range; [lia|].
  change (2 ^ (64 - 1)) with 9223372036854775808. exact H.
Qed.

(** X7. For a bucket whose [wait_timeout_millis] is between 0 and
    9223372036854 (the largest count of milliseconds an int64 of
    nanoseconds holds) and an override of at least -9223372036854, the
    wait that [Allow] hands to [Take] never exceeds the configured
    timeout; it is the override's duration exactly when the override is
    set and below the timeout, and the timeout's duration otherwise. *)
Theorem Allow_wait_is_bounded_by_the_timeout
    (namespace name : string) (n ovr : Z) (use : bool) (w w' : World)
    (r : Duration * bool * option error) :
  Server.Allow namespace name n ovr use w = Ret (r, w') ->
  - 9223372036854 <= ovr ->
  exists l, calls w' = (calls w ++ l)%list /\
    forall b m d, In (b, m, d) (takes l) ->
      0 <= WaitTimeoutMillis (Config b) <= 9223372036854 ->
      d <= WaitTimeoutMillis (Config b) * 1000000 /\
      (use = true -> ovr < WaitTimeoutMillis (Config b) -> d = ovr * 1000000) /\
      (use = false \/ WaitTimeoutMillis (Config b) <= ovr ->
       d = WaitTimeoutMillis (Config b) * 1000000).
Proof.
  intros Hrun Hovr.
  destruct (Server_Allow_maxWait namespace name n ovr use w w' r Hrun)
    as (l & Hcalls & Htakes).
  exists l. split; [exact Hcalls|]. intros b m d Hin Ht.
  destruct (Htakes b m d Hin) as [_ ->]. unfold cappedWait, mulDuration, Millisecond.
  destruct use; cbn [andb].
  - destruct (ovr <? WaitTimeoutMillis (Config b)) eqn:E.
    + apply Z.ltb_lt in E. rewrite wrap64_in_range by lia.
      repeat split; [lia | intros; lia |].
      intros [H|H]; [discriminate | lia].
    + apply Z.ltb_ge in E. rewrite wrap64_in_range by lia.
      repeat split; [lia | intros; lia | intros; lia].
  - rewrite wrap64_in_range by lia.
    repeat split; [lia | discriminate | intros; lia].
Qed.

(** X8. The two copies of [Allow] differ only in the override and in the
    dynamic flag: when the override is not set, or is below the timeout
    of the bucket that resolution returns, the copy in src/server.go
    returns the same wait and error as the other one and leaves the
    same world. *)
Theorem Allow_copies_agree_below_the_timeout
    (namespace name : string) (n ovr : Z) (use : bool) (w : World) (bc : Container) :
  bucketContainer (sv w) = Some bc ->
  (forall b bc', FindBucket bc namespace name = ((Some b, None), bc') ->
                 use = true -> ovr < WaitTimeoutMillis (Config b)) ->
  exists wait dyn e w',
    Server.Allow namespace name n ovr use w = Ret ((wait, dyn, e), w') /\
    ServerGo.Allow namespace name n ovr use w = Ret ((wait, e), w').
Proof.
  intros Hbc Hbelow. open_world w. subst. run.
  destruct (FindBucket bc namespace name) as [[[b|] [e|]] bc'] eqn:Hfind; cbn.
  1, 3, 4: destruct producer0; cbn; do 4 eexists; split; reflexivity.
  assert (Hw : (use && (ovr <? WaitTimeoutMillis (Config b)))%bool = use).
  { destruct use; [|reflexivity]. cbn.
    apply Z.ltb_lt. apply (Hbelow b bc'); reflexivity. }
  rewrite Hw.
  destruct ((MaxTokensPerRequest (Config b) <? n)
            && (MaxTokensPerRequest (Config b) >? 0)); cbn.
  - destruct producer0; cbn; do 4 eexists; split; reflexivity.
  - match goal with |- context [Take b n ?d bc'] =>
      destruct (Take b n d bc') as [[wt [|]] bc''] end; cbn;
    destruct producer0; cbn; do 4 eexists; split; reflexivity.
Qed.

End MoreAllowFacts.

Section MoreConfigFacts.
Context {BA : BucketAPI} {PA : ProducerAPI} {SA : ConfigAPI}.

(** What [updateConfig] does on a live config, step by step. *)
Lemma Server_updateConfig_run
    (versionBits : Z) (user : string) (now : Z)
    (updater : ServiceConfig -> ServiceConfig * option error)
    (w : World) (cfg : ServiceConfig) :
  cfgs (sv w) = Some cfg ->
  Server.updateConfig versionBits user now updater w
  = match snd (updater cfg) with
    | Some err => Ret (Some err, w)
    | None =>
        let c := stamped versionBits user now (Version cfg) (fst (updater cfg)) in
        match snd (Marshal c) with
        | Some e => Ret (Some e, w)
        | None =>
            Ret (fst (PersistAndNotify (persister (sv w)) (fst (Marshal c))),
                 mkWorld (set_persister
                            (snd (PersistAndNotify (persister (sv w))
                                    (fst (Marshal c)))) (sv w))
                         (calls w ++ [CPersistAndNotify (fst (Marshal c))]))
        end
    end.
Proof.
  intros Hcfg. open_world w. subst. run. unfold stamped.
  destruct (updater cfg) as [edited [e0|]]; cbn; [reflexivity|].
  destruct (Marshal _) as [rd [e|]]; cbn; [reflexivity|].
  destruct (PersistAndNotify persister0 rd) as [e p]; reflexivity.
Qed.

(** X9. On a live config [updateConfig] always returns, and it returns
    no error exactly when the updater, [config.Marshal] and
    [PersistAndNotify] all return none; the persister is called (once)
    exactly when the updater and [config.Marshal] succeeded, so a failed
    persist is the only failure that can leave a trace in the store. *)
Theorem updateConfig_succeeds_iff
    (versionBits : Z) (user : string) (now : Z)
    (updater : ServiceConfig -> ServiceConfig * option error)
    (w : World) (cfg : ServiceConfig) :
  cfgs (sv w) = Some cfg ->
  exists e w' l,
    Server.updateConfig versionBits user now updater w = Ret (e, w') /\
    calls w' = (calls w ++ l)%list /\
    let c := stamped versionBits user now (Version cfg) (fst (updater cfg)) in
    (e = None <->
       snd (updater cfg) = None /\ snd (Marshal c) = None /\
       fst (PersistAndNotify (persister (sv w)) (fst (Marshal c))) = None) /\
    (snd (updater cfg) = None /\ snd (Marshal c) = None ->
       l = [CPersistAndNotify (fst (Marshal c))]) /\
    (snd (updater cfg) <> None \/ snd (Marshal c) <> None -> l = [] /\ w' = w).
Proof.
  intros Hcfg. rewrite (Server_updateConfig_run _ _ _ _ _ _ Hcfg). cbv zeta.
  destruct (snd (updater cfg)) as [e0|].
  { exists (Some e0), w, []. rewrite app_nil_r.
    split; [reflexivity|]. split; [reflexivity|].
    intuition (try discriminate; try congruence). }
  destruct (snd (Marshal _)) as [e1|].
  { exists (Some e1), w, []. rewrite app_nil_r.
    split; [reflexivity|]. split; [reflexivity|].
    intuition (try discriminate; try congruence). }
  do 3 eexists. split; [reflexivity|]. cbn. split; [reflexivity|].
  intuition (try discriminate; try congruence).
Qed.

(** X10. The live version moves only on a reload: two mutations that
    succeed one after the other, with no reload in between, hand the
    persister two configs stamped with the same version, the live
    version plus one. *)
Theorem back_to_back_mutations_get_the_same_version
    (versionBits : Z) (user1 user2 : string) (now1 now2 : Z)
    (updater1 updater2 : ServiceConfig -> ServiceConfig * option error)
    (w w1 w2 : World) (cfg : ServiceConfig) :
  cfgs (sv w) = Some cfg ->
  Server.updateConfig versionBits user1 now1 updater1 w = Ret (None, w1) ->
  Server.updateConfig versionBits user2 now2 updater2 w1 = Ret (None, w2) ->
  exists c1 c2,
    calls w2 = (calls w ++ [CPersistAndNotify (fst (Marshal c1));
                            CPersistAndNotify (fst (Marshal c2))])%list /\
    User c1 = user1 /\ User c2 = user2 /\
    Version c1 = wrap versionBits (Version cfg + 1) /\
    Version c2 = wrap versionBits (Version cfg + 1).
Proof.
  intros Hcfg H1 H2.
  rewrite (Server_updateConfig_run _ _ _ _ _ _ Hcfg) in H1. cbv zeta in H1.
  destruct (snd (updater1 cfg)) as [e|]; [discriminate|].
  destruct (snd (Marshal _)) as [e|] in H1; [discriminate|].
  injection H1 as H1e H1w.
  assert (Hcfg1 : cfgs (sv w1) = Some cfg).
  { rewrite <- H1w. destruct w as [[] ?]; exact Hcfg. }
  rewrite (Server_updateConfig_run _ _ _ _ _ _ Hcfg1) in H2. cbv zeta in H2.
  destruct (snd (updater2 cfg)) as [e|]; [discriminate|].
  destruct (snd (Marshal _)) as [e|] in H2; [discriminate|].
  injection H2 as H2e H2w.
  do 2 eexists. split.
  { rewrite <- H2w. cbn. rewrite <- H1w. cbn. rewrite <- app_assoc.
    reflexivity. }
  repeat split.
Qed.


(** One more round of the listener. *)
Lemma configListener_S (n : nat) (w : World) :
  Server.configListener (S n) w
  = match receive (persister (sv w)) with
    | None => Blocked
    | Some p1 =>
        match Server.readUpdatedConfig
                (mkWorld (set_persister p1 (sv w)) (calls w)) with
        | Ret (_, w2) => Server.configListener n w2
        | Panic => Panic
        | Blocked => Blocked
        end
    end.
Proof.
  cbn [Server.configListener]. cbv [bind recv get put block].
  destruct (receive (persister (sv w))); reflexivity.
Qed.


Lemma keeps_installation_refl (s : server) : keeps_installation s s.
Proof. right. split; [reflexivity | tauto]. Qed.

Lemma keeps_installation_trans (s1 s2 s3 : server) :
  keeps_installation s1 s2 -> keeps_installation s2 s3 ->
  keeps_installation s1 s3.
Proof.
  intros H12 [H3|[Hc Hb]]; [left; exact H3|].
  destruct H12 as [(c & bc & Hc2 & Hb2)|[Hc1 Hb1]].
  - left. destruct (bucketContainer s3) as [bc3|] eqn:E3.
    + exists c, bc3. split; [congruence | first [exact E3 | reflexivity]].
    + exfalso. assert (H : bucketContainer s2 = None) by (apply Hb; reflexivity).
      congruence.
  - right. split; [congruence | tauto].
Qed.

Lemma keeps_installation_sound (s s' : server) :
  keeps_installation s s' ->
  (installed_together s -> installed_together s') /\
  (installed s -> installed s').
Proof.
  intros [Hi|[Hc Hb]].
  - split; intros _; [right|]; exact Hi.
  - split.
    + intros [[Hc0 Hb0]|(c & bc & Hc0 & Hb0)].
      * left. split; [congruence | apply Hb; exact Hb0].
      * right. destruct (bucketContainer s') as [bc'|] eqn:E.
        -- exists c, bc'. split; [congruence | first [exact E | reflexivity]].
        -- exfalso. assert (H : bucketContainer s = None) by (apply Hb; reflexivity).
           congruence.
    + intros (c & bc & Hc0 & Hb0).
      destruct (bucketContainer s') as [bc'|] eqn:E.
      * exists c, bc'. split; [congruence | first [exact E | reflexivity]].
      * exfalso. assert (H : bucketContainer s = None) by (apply Hb; reflexivity).
        congruence.
Qed.

Lemma Allow_keeps_installation
    (namespace name : string) (n ovr : Z) (use : bool) (w w' : World)
    (r : Duration * bool * option error) :
  Server.Allow namespace name n ovr use w = Ret (r, w') ->
  keeps_installation (sv w) (sv w').
Proof.
  intros Hrun.
  destruct (bucketContainer (sv w)) as [bc|] eqn:Hbc.
  2: { destruct (Allow_nil_container namespace name n ovr use w Hbc) as [E _].
       rewrite E in Hrun. discriminate. }
  destruct (Server_Allow_shape namespace name n ovr use w bc Hbc)
    as (r0 & w0 & bcf & l & ev & Hrun0 & Hsv & _).
  rewrite Hrun0 in Hrun. injection Hrun as <- <-. rewrite Hsv.
  right. destruct w as [[] ?]; cbn in *. subst.
  split; [reflexivity|]. split; discriminate.
Qed.

Lemma readUpdatedConfig_keeps_installation (w w' : World) :
  Server.readUpdatedConfig w = Ret (tt, w') ->
  keeps_installation (sv w) (sv w').
Proof.
  intros Hrun.
  destruct (Server_readUpdatedConfig_cases w) as (w0 & Hr & Hc).
  rewrite Hr in Hrun. injection Hrun as <-.
  destruct (ReadPersistedConfig (persister (sv w))) as [configReader [e|]].
  - destruct Hc as [-> _]. apply keeps_installation_refl.
  - destruct (Unmarshal configReader) as [newConfig|[q e]].
    + destruct Hc as [-> _]. left. destruct w as [[] ?]; cbn.
      do 2 eexists. split; reflexivity.
    + destruct Hc as [-> _]. apply keeps_installation_refl.
Qed.

Lemma configListener_keeps_installation (n : nat) (w w' : World) :
  Server.configListener n w = Ret (tt, w') ->
  keeps_installation (sv w) (sv w').
Proof.
  revert w. induction n as [|n IH]; intros w Hrun.
  - cbn in Hrun. injection Hrun as <-. apply keeps_installation_refl.
  - rewrite configListener_S in Hrun.
    destruct (receive (persister (sv w))) as [p1|]; [|discriminate].
    set (w1 := mkWorld (set_persister p1 (sv w)) (calls w)) in *.
    destruct (Server_readUpdatedConfig_cases w1) as (w2 & Hr & _).
    rewrite Hr in Hrun.
    apply (keeps_installation_trans _ (sv w1)).
    { subst w1. right. destruct w as [[] ?]; cbn. split; [reflexivity | tauto]. }
    apply (keeps_installation_trans _ (sv w2)).
    { apply readUpdatedConfig_keeps_installation. exact Hr. }
    apply IH. exact Hrun.
Qed.

Lemma updateConfig_keeps_installation
    (versionBits : Z) (user : string) (now : Z)
    (updater : ServiceConfig -> ServiceConfig * option error)
    (w w' : World) (r : option error) :
  Server.updateConfig versionBits user now updater w = Ret (r, w') ->
  keeps_installation (sv w) (sv w').
Proof.
  intros Hrun.
  destruct (cfgs (sv w)) as [cfg|] eqn:Hcfg.
  2: { destruct w as [[] ?]; cbn in Hcfg; subst.
       cbv [Server.updateConfig bind get] in Hrun. cbn in Hrun.
       discriminate. }
  rewrite (Server_updateConfig_run _ _ _ _ _ _ Hcfg) in Hrun.
  cbv zeta in Hrun.
  destruct (snd (updater cfg));
    [injection Hrun as <- <-; apply keeps_installation_refl|].
  destruct (snd (Marshal _));
    [injection Hrun as <- <-; apply keeps_installation_refl|].
  injection Hrun as <- <-. right. destruct w as [[] ?]; cbn.
  split; [reflexivity | tauto].
Qed.

Lemma Stop_keeps_installation (w w' : World) (r : bool * option error) :
  Stop w = Ret (r, w') -> keeps_installation (sv w) (sv w').
Proof.
  revert w'. open_world w. run.
  rewrite (forEach_calls (fun r => [CRpcStop r]))
    by (intros x [s0 l0]; reflexivity).
  cbn. intros w' Hrun. injection Hrun as <- <-. right; unset; cbn; split; [reflexivity | tauto].
Qed.

Lemma Start_keeps_installation (w w' : World) (r : bool * option error) :
  Server.Start w = Ret (r, w') -> keeps_installation (sv w) (sv w').
Proof.
  revert w'. open_world w. run. unset.
  destruct (receive persister0) as [p|];
    [|intros w' H; cbn in H; discriminate]. cbn.
  destruct (ReadPersistedConfig p) as [configReader [e|]]; cbn.
  - rewrite (forEach_calls (fun r => [CRpcInit r; CRpcStart r]))
      by (intros x [s0 l0]; cbn; rewrite <- app_assoc; reflexivity).
    cbn. intros w' Hrun. injection Hrun as <- <-. right; unset; cbn; split; [reflexivity | tauto].
  - destruct (Unmarshal configReader) as [newConfig|[q e]]; cbn;
      rewrite (forEach_calls (fun r => [CRpcInit r; CRpcStart r]))
        by (intros x [s0 l0]; cbn; rewrite <- app_assoc; reflexivity);
      cbn; intros w' Hrun; injection Hrun as <- <-.
    + left. do 2 eexists. split; reflexivity.
    + right; unset; cbn; split; [reflexivity | tauto].
Qed.

(** X13. The live config and the live container are there together or
    not at all, and every method of the later copy keeps it so: after
    [Allow], a reload, any number of rounds of the listener, a mutation,
    [Stop] or [Start], [installed_together] still holds, and when both
    were installed before they are installed after: once installed, the
    config and the container are never nil again. *)
Theorem installed_together_is_kept (w : World) :
  installed_together (sv w) ->
  (forall namespace name n ovr use r w',
     Server.Allow namespace name n ovr use w = Ret (r, w') ->
     installed_together (sv w') /\ (installed (sv w) -> installed (sv w'))) /\
  (forall w', Server.readUpdatedConfig w = Ret (tt, w') ->
     installed_together (sv w') /\ (installed (sv w) -> installed (sv w'))) /\
  (forall n w', Server.configListener n w = Ret (tt, w') ->
     installed_together (sv w') /\ (installed (sv w) -> installed (sv w'))) /\
  (forall versionBits user now updater r w',
     Server.updateConfig versionBits user now updater w = Ret (r, w') ->
     installed_together (sv w') /\ (installed (sv w) -> installed (sv w'))) /\
  (forall r w', Stop w = Ret (r, w') ->
     installed_together (sv w') /\ (installed (sv w) -> installed (sv w'))) /\
  (forall r w', Server.Start w = Ret (r, w') ->
     installed_together (sv w') /\ (installed (sv w) -> installed (sv w'))).
Proof.
  intros Hinv.
  assert (K : forall s', keeps_installation (sv w) s' ->
                installed_together s' /\ (installed (sv w) -> installed s')).
  { intros s' Hk. destruct (keeps_installation_sound _ _ Hk) as [H1 H2].
    split; [apply H1; exact Hinv | exact H2]. }
  repeat apply conj.
  - intros namespace name n ovr use r w' Hrun. apply K.
    apply (Allow_keeps_installation namespace name n ovr use w w' r Hrun).
  - intros w' Hrun. apply K. apply readUpdatedConfig_keeps_installation, Hrun.
  - intros n w' Hrun. apply K. apply (configListener_keeps_installation n), Hrun.
  - intros versionBits user now updater r w' Hrun. apply K.
    apply (updateConfig_keeps_installation versionBits user now updater w w' r Hrun).
  - intros r w' Hrun. apply K. apply (Stop_keeps_installation w w' r Hrun).
  - intros r w' Hrun. apply K. apply (Start_keeps_installation w w' r Hrun).
Qed.


(** X15. [Start] of src/server.go returns [(true, nil)] from every
    state, whatever the persister holds: it registers the producer with
    the configured buffer size as it is (0 on a server that [SetListener]
    was never called on), spawns the listener, and initialises and
    starts every endpoint, without a reload of its own. *)
Theorem ServerGo_Start_starts_the_endpoints_at_once (w : World) :
  ServerGo.Start w
  = Ret ((true, None),
         mkWorld (set_currentStatus Started
                    (set_producer
                       (Some (RegisterListener (eventQueueBufSize (sv w))))
                       (sv w)))
                 (calls w ++ CGo_configListener
                    :: flat_map (fun e => [CRpcInit e; CRpcStart e])
                                (rpcEndpoints (sv w)))).
Proof.
  open_world w. run. unset.
  rewrite (forEach_calls (fun r => [CRpcInit r; CRpcStart r]))
    by (intros x [s0 l0]; cbn; rewrite <- app_assoc; reflexivity).
  cbn. rewrite <- app_assoc. reflexivity.
Qed.

(** X16. [SetListener] returns exactly when the server is not started
    and the buffer size is at least 1 (it is accepted again on a stopped
    server); it then changes the listener and the buffer size only, and
    a later [Start] registers the producer with exactly that size. *)
Theorem SetListener_size_reaches_the_producer
    {L : Type} (listener old : option L) (size : Z) (w : World) :
  (currentStatus (sv w) <> Started /\ 1 <= size <->
   SetListener listener size (sv w, old)
   = Ret (set_eventQueueBufSize size (sv w), listener)) /\
  (currentStatus (sv w) = Started \/ size < 1 <->
   SetListener listener size (sv w, old) = Panic) /\
  (forall s' l' r w',
     SetListener listener size (sv w, old) = Ret (s', l') ->
     Server.Start (mkWorld s' (calls w)) = Ret (r, w') ->
     producer (sv w') = Some (RegisterListener size)).
Proof.
  open_world w. unfold SetListener. cbn [fst currentStatus].
  destruct (size <? 1) eqn:E;
    [apply Z.ltb_lt in E | apply Z.ltb_ge in E].
  - repeat apply conj.
    + intros [_ H]. lia.
    + destruct currentStatus0; discriminate.
    + intros _. destruct currentStatus0; reflexivity.
    + intros _. right. exact E.
    + intros s' l' r w' H. destruct currentStatus0; discriminate.
  - repeat apply conj.
    + intros [H _]. destruct currentStatus0; [reflexivity | congruence | reflexivity].
    + intros H. split; [|exact E]. destruct currentStatus0; discriminate.
    + intros [H|H]; [rewrite H; reflexivity | lia].
    + intros H. left. destruct currentStatus0; [discriminate | reflexivity | discriminate].
    + intros s' l' r w' H Hstart.
      assert (Hs : s' = set_eventQueueBufSize size
                          (mkServer currentStatus0 bucketContainer0 rpcEndpoints0
                             eventQueueBufSize0 producer0 cfgs0 persister0)).
      { destruct currentStatus0; [|discriminate|]; injection H as <- _; reflexivity. }
      subst s'. clear H. revert Hstart. run. unset.
      assert (Hmax : (if size <? 1 then 1 else size) = size).
      { destruct (size <? 1) eqn:E'; [apply Z.ltb_lt in E'; lia | reflexivity]. }
      rewrite Hmax.
      destruct (receive persister0) as [p|]; [|discriminate]. cbn.
      destruct (ReadPersistedConfig p) as [configReader [e|]]; cbn.
      * rewrite (forEach_calls (fun r => [CRpcInit r; CRpcStart r]))
          by (intros x [s0 l0]; cbn; rewrite <- app_assoc; reflexivity).
        cbn. intros Hrun. injection Hrun as <- <-. reflexivity.
      * destruct (Unmarshal configReader) as [newConfig|[q e]]; cbn;
          rewrite (forEach_calls (fun r => [CRpcInit r; CRpcStart r]))
            by (intros x [s0 l0]; cbn; rewrite <- app_assoc; reflexivity);
          cbn; intros Hrun; injection Hrun as <- <-; reflexivity.
Qed.


(** X18. When the history is read and some element does not unmarshal,
    the error that [HistoricalConfigs] returns is the one of the first
    such element, in the order of the history. *)
Theorem HistoricalConfigs_returns_the_first_error
    (w : World) (before after : list Reader) (bad : Reader)
    (q : option ServiceConfig) (e : error) :
  ReadHistoricalConfigs (persister (sv w)) = ((before ++ bad :: after)%list, None) ->
  Forall (fun rd => exists c, Unmarshal rd = inl c) before ->
  Unmarshal bad = inr (q, e) ->
  Server.HistoricalConfigs w = Ret ((None, Some e), w).
Proof.
  intros Hread Hbefore Hbad. open_world w. run. rewrite Hread. cbn.
  assert (Hu : Server.unmarshalConfigs (before ++ bad :: after) = inr e).
  { clear Hread. induction Hbefore as [|rd rest [c Hc] _ IH]; cbn.
    - rewrite Hbad. reflexivity.
    - rewrite Hc, IH. reflexivity. }
  rewrite Hu. reflexivity.
Qed.

(** X19. Mutation, then reload.  Where the codec round-trips ([Unmarshal]
    gives back what [Marshal] was given) and the persister hands back
    what it was last given, a mutation that succeeds followed by one
    round of the listener makes the stamped config the live one: the
    edited clone with defaults applied, the caller as user, the time as
    date and the old live version plus one, with a container built from
    it. *)
Theorem mutation_then_reload_installs_the_stamped_config
    (versionBits : Z) (user : string) (now : Z)
    (updater : ServiceConfig -> ServiceConfig * option error)
    (w w1 : World) (cfg : ServiceConfig) (p : Persister) :
  cfgs (sv w) = Some cfg ->
  Server.updateConfig versionBits user now updater w = Ret (None, w1) ->
  receive (persister (sv w1)) = Some p ->
  (forall c rd, Marshal c = (rd, None) -> Unmarshal rd = inl c) ->
  (forall rd, persisted (calls w1) = (persisted (calls w) ++ [rd])%list ->
              ReadPersistedConfig p = (rd, None)) ->
  exists w2 live,
    Server.configListener 1 w1 = Ret (tt, w2) /\
    Configs w2 = Ret (Some live, w2) /\
    live = stamped versionBits user now (Version cfg) (fst (updater cfg)) /\
    Version live = wrap versionBits (Version cfg + 1) /\
    User live = user /\ Date live = now /\
    bucketContainer (sv w2) = Some (NewBucketContainer (Some live)).
Proof.
  intros Hcfg Hrun Hrecv Hcodec Hstore.
  destruct (Server_updateConfig_success versionBits user now updater w w1 cfg
              Hcfg Hrun)
    as (edited & rd & Hup & HM & Hcalls & _ & Hu & Hd & Hv & _).
  assert (Hread : ReadPersistedConfig p = (rd, None)).
  { apply Hstore. rewrite Hcalls, persisted_app. reflexivity. }
  assert (Hun := Hcodec _ _ HM).
  rewrite Hup. cbn [fst].
  rewrite configListener_S, Hrecv.
  set (w1' := mkWorld (set_persister p (sv w1)) (calls w1)).
  destruct (Server_readUpdatedConfig_cases w1') as (w2 & Hr & Hc).
  replace (persister (sv w1')) with p in Hc
    by (subst w1'; destruct w1 as [[] ?]; reflexivity).
  rewrite Hread, Hun in Hc. destruct Hc as [Hsv _].
  rewrite Hr. exists w2. eexists. split; [reflexivity|].
  unfold Configs, bind, get, ret. rewrite Hsv.
  subst w1'. destruct w1 as [[] ?]; cbn.
  split; [reflexivity|]. repeat split; assumption.
Qed.

End MoreConfigFacts.

(** * Runs on the in-memory implementation *)

Import Toy.

(** C1. src/server.go at [Allow(ns, web, 1, 10000, true)] on a bucket
    whose [wait_timeout_millis] is 5000: [Take] is handed 10000 ms, where
    the capped wait is 5000 ms. *)
Theorem ServerGo_Allow_override_extends_wait :
  WaitTimeoutMillis (Config (bucketCfg, false)) = 5000 /\
  (exists r w',
     ServerGo.Allow "ns" "web" 1 10000 true running = Ret (r, w') /\
     takes (calls w') = [((bucketCfg, false), 1, 10000 * Millisecond)]) /\
  cappedWait (bucketCfg, false) 10000 true = 5000 * Millisecond.
Proof.
  split; [reflexivity|]. split; [|reflexivity].
  do 2 eexists. split; [cbv; reflexivity | reflexivity].
Qed.

(** The later copy on the same call hands [Take] 5000 ms, and 100 ms
    when the override is 100. *)
Example Server_Allow_override_capped :
  (exists r w',
     Server.Allow "ns" "web" 1 10000 true running = Ret (r, w') /\
     takes (calls w') = [((bucketCfg, false), 1, 5000 * Millisecond)]) /\
  (exists r w',
     Server.Allow "ns" "web" 1 100 true running = Ret (r, w') /\
     takes (calls w') = [((bucketCfg, false), 1, 100 * Millisecond)]).
Proof.
  split; do 2 eexists; (split; [cbv; reflexivity | reflexivity]).
Qed.

(** C2, as stated, fails: a call for 6 tokens on a bucket that allows 5
    per request ends in a fifth way. *)
Lemma Allow_outcome_outside_the_four :
  exists r w',
    Server.Allow "ns" "capped" 6 0 false running = Ret (r, w') /\
    emitted (calls w') = [NewTooManyTokensRequestedEvent "ns" "capped" false 6] /\
    snd r = Some (newError ER_TOO_MANY_TOKENS_REQUESTED) /\
    ~ four_outcomes (emitted (calls w')) (snd r).
Proof.
  do 2 eexists. split; [cbv; reflexivity|]. cbn. repeat split.
  intros [H|[H|[H|H]]].
  - destruct H as (ns & nm & H & _). discriminate.
  - destruct H as (ns & nm & H & _). discriminate.
  - destruct H as (ns & nm & d & n & H & _). discriminate.
  - destruct H as (ns & nm & d & n & wt & H & _). discriminate.
Qed.

Lemma Allow_result_and_event_witness :
  bucketContainer (sv running) = Some 10 /\
  exists r w' ev,
    Server.Allow "ns" "web" 12 100 true running = Ret (r, w') /\
    emitted (calls w') = (emitted (calls running) ++ [ev])%list /\
    ev = NewTimedOutEvent "ns" "web" false 12 /\
    r = (0, false, Some (newError ER_TIMEOUT)).
Proof.
  split; [reflexivity|].
  destruct (Allow_result_and_event "ns" "web" 12 100 true running 10 eq_refl)
    as (r & w' & ev & H1 & H2 & H3).
  exists r, w', ev. split; [exact H1|]. split; [exact H2|]. exact H3.
Defined.

Lemma Allow_max_tokens_per_request_witness :
  bucketContainer (sv running) = Some 10 /\
  FindBucket 10 "ns" "capped" = ((Some (cappedCfg, false), None), 10) /\
  0 < MaxTokensPerRequest (Config (cappedCfg, false)) < 6 /\
  exists w',
    Server.Allow "ns" "capped" 6 0 false running
      = Ret ((0, false, Some (newError ER_TOO_MANY_TOKENS_REQUESTED)), w') /\
    takes (calls w') = [] /\
    bucketContainer (sv w') = Some 10.
Proof.
  split; [reflexivity|]. split; [reflexivity|].
  assert (Hr : 0 < MaxTokensPerRequest (Config (cappedCfg, false)) < 6)
    by (split; reflexivity).
  split; [exact Hr|].
  destruct (Allow_max_tokens_per_request "ns" "capped" 6 0 false running 10 10
              (cappedCfg, false) eq_refl eq_refl) as [H _].
  destruct (H Hr) as (w' & H1 & _ & H3 & H4).
  exists w'. split; [exact H1|]. split; [rewrite H3; reflexivity | exact H4].
Defined.

(** C10, as stated, fails: on the server that [Start] leaves behind when
    the first read fails there is no container, and a call to [Allow]
    panics in the resolution, before any event is handed to [Emit]. *)
Lemma Allow_without_container_emits_nothing :
  exists w,
    Server.Start (fresh unreadable) = Ret ((true, None), w) /\
    Server.Allow "ns" "web" 1 0 false w = Panic /\
    ~ (exists r w' l ev,
         Server.Allow "ns" "web" 1 0 false w = Ret (r, w') /\
         calls w' = (calls w ++ l)%list /\
         emitted l = [ev]).
Proof.
  eexists. split; [cbv; reflexivity|]. split; [reflexivity|].
  intros (r & w' & l & ev & H & _). cbv in H. discriminate.
Qed.

Lemma Allow_emits_exactly_once_witness :
  bucketContainer (sv running) = Some 10 /\
  exists r w' l ev,
    Server.Allow "ns" "missing" 1 0 false running = Ret (r, w') /\
    calls w' = (calls running ++ l)%list /\
    emitted l = [ev] /\
    forall p, exists w'',
      Server.Allow "ns" "missing" 1 0 false (with_producer p running)
        = Ret (r, w'').
Proof.
  split; [reflexivity|].
  destruct (Allow_emits_exactly_once "ns" "missing" 1 0 false running 10 eq_refl)
    as [(r & w' & l & ev & H1 & H2 & H3 & _ & H5) _].
  exists r, w', l, ev. repeat (split; [assumption|]).
  intros p. destruct (H5 p) as (w'' & H6 & _). exists w''. exact H6.
Defined.

(** C4. src/server.go at [AddNamespace(tenant)] on a live config of
    version 7, last written by alice at 1000: the config handed to the
    persister still has version 7, user alice and date 1000, and
    [ApplyDefaults] has not been applied to it (it would change it). *)
Theorem ServerGo_updateConfig_does_not_stamp :
  exists w' c,
    ServerGo.AddNamespace tenant running = Ret (None, w') /\
    persisted (calls w') = [Some c] /\
    Namespaces c = [tenant] /\
    Version c = 7 /\ User c = "alice" /\ Date c = 1000 /\
    ApplyDefaults c <> c.
Proof.
  do 2 eexists. split; [cbv; reflexivity|]. cbn.
  repeat split. discriminate.
Qed.

(** The later copy on the same mutation, made by bob at 2000: version 8,
    user bob, date 2000, defaults applied. *)
Example Server_updateConfig_stamps :
  exists w' c,
    Server.AddNamespace 32 tenant "bob" 2000 running = Ret (None, w') /\
    persisted (calls w') = [Some c] /\
    Namespaces c = [tenant] /\
    Version c = 8 /\ User c = "bob" /\ Date c = 2000 /\
    GlobalDefaultBucket c = Some bucketCfg.
Proof.
  do 2 eexists. split; [cbv; reflexivity|]. cbn. repeat split.
Qed.

Lemma updateConfig_error_is_atomic_witness :
  cfgs (sv running) = Some cfg7 /\
  snd (toyCreateNamespace (set_Version 9 (toyDefaults cfg7))
         (mkNamespaceConfig "a" 0 None None [])) = None /\
  Server.AddBucket 32 "nowhere" bucketCfg "bob" 2000 running
    = Ret (Some (externalError "no such namespace"), running) /\
  ServerGo.AddBucket "nowhere" bucketCfg running
    = Ret (Some (externalError "no such namespace"), running).
Proof.
  split; [reflexivity|]. split; [reflexivity|].
  destruct (updateConfig_error_is_atomic 32 "bob" 2000
              (fun clonedCfg => CreateBucket clonedCfg "nowhere" bucketCfg)
              running cfg7 (externalError "no such namespace") eq_refl)
    as [H1 H2].
  split; [apply H1 | apply H2]; left; reflexivity.
Defined.

Lemma updateConfig_does_not_install_witness :
  (exists w',
     Server.AddNamespace 32 tenant "bob" 2000 running = Ret (None, w') /\
     cfgs (sv w') = Some cfg7 /\
     bucketContainer (sv w') = Some 10 /\
     signals (persister (sv w')) = 1%nat /\
     exists w2,
       Server.configListener 1 w' = Ret (tt, w2) /\
       option_map Version (cfgs (sv w2)) = Some 8 /\
       installs (calls w2) = [cfgs (sv w2)]).
Proof.
  destruct (Server.AddNamespace 32 tenant "bob" 2000 running)
    as [[r w']| |] eqn:E.
  2, 3: cbv in E; discriminate.
  destruct (updateConfig_does_not_install 32 "bob" 2000
              (fun clonedCfg => CreateNamespace clonedCfg tenant)
              running w' r E) as (H1 & H2 & _ & _).
  cbv in E. injection E as <- <-.
  eexists. split; [reflexivity|]. split; [exact H1|]. split; [exact H2|].
  split; [reflexivity|].
  eexists. split; [cbv; reflexivity|]. split; reflexivity.
Defined.

(** C7. src/server.go, one round of [configListener] on a server in
    service (config version 7, a container with 3 tokens left) whose
    persister cannot be read: both errors are logged, and then
    [createBucketContainer] runs on the nil config: the live config is
    gone and the container is a new one. *)
Theorem ServerGo_configListener_installs_after_failed_read :
  fst (ReadPersistedConfig unreadable) = None /\
  snd (ReadPersistedConfig unreadable) = Some (externalError "read failed") /\
  cfgs (sv degraded) = Some cfg7 /\
  bucketContainer (sv degraded) = Some 3 /\
  exists w',
    ServerGo.configListener 1 degraded = Ret (tt, w') /\
    calls w' = [CLog "error reading persisted config";
                CLog "error reading marshalled config";
                CFactoryInit None] /\
    cfgs (sv w') = None /\
    bucketContainer (sv w') = Some (NewBucketContainer None) /\
    bucketContainer (sv w') <> bucketContainer (sv degraded).
Proof.
  repeat (split; [reflexivity|]).
  eexists. split; [cbv; reflexivity|]. cbn.
  repeat (split; [reflexivity|]). discriminate.
Qed.

(** The later copy on the same round: the error is logged and the server
    keeps its config and its container. *)
Example Server_configListener_keeps_container :
  exists w',
    Server.configListener 1 degraded = Ret (tt, w') /\
    calls w' = [CLog "error reading persisted config"] /\
    cfgs (sv w') = Some cfg7 /\
    bucketContainer (sv w') = Some 3.
Proof.
  eexists. split; [cbv; reflexivity|]. cbn. repeat split.
Qed.

(** C8, as stated, fails: with a first signal pending and a persister
    that cannot be read, [Start] returns [(true, nil)] and the server has
    no container; the next [Allow] runs into the nil container. *)
Lemma Start_returns_without_container :
  exists w',
    Server.Start (fresh unreadable) = Ret ((true, None), w') /\
    currentStatus (sv w') = Started /\
    bucketContainer (sv w') = None /\
    Server.Allow "ns" "web" 1 0 false w' = Panic.
Proof.
  eexists. split; [cbv; reflexivity|]. cbn. repeat split.
Qed.

Lemma Start_returns_after_first_reload_witness :
  Server.Start (fresh emptyStore) = Blocked /\
  exists w',
    Server.Start (fresh holding8) = Ret ((true, None), w') /\
    option_map Version (cfgs (sv w')) = Some 8 /\
    bucketContainer (sv w') = Some 10 /\
    signals (persister (sv w')) = 0%nat.
Proof.
  destruct (Start_returns_after_first_reload (fresh emptyStore)) as [H _].
  split; [apply H; reflexivity|].
  destruct (Server.Start (fresh holding8)) as [[r w']| |] eqn:E.
  2, 3: cbv in E; discriminate.
  destruct (Start_returns_after_first_reload (fresh holding8))
    as (_ & H2 & _).
  destruct (H2 r w' E) as (Hr & _ & p & c & Hp & Hp' & _ & Hc).
  exists w'. rewrite Hr.
  injection Hp as <-. cbn in Hc. destruct Hc as (_ & Hc1 & Hc2).
  split; [reflexivity|]. split; [rewrite Hc1; reflexivity|].
  split; [exact Hc2|]. rewrite Hp'. reflexivity.
Defined.

Lemma HistoricalConfigs_sorted_by_version_witness :
  exists sorted,
    Server.HistoricalConfigs archived = Ret ((Some sorted, None), archived) /\
    map Version sorted = [9; 8; 7].
Proof.
  destruct (HistoricalConfigs_sorted_by_version archived)
    as (r & Hrun & _ & _ & _ & Hok).
  destruct (Hok eq_refl [cfg7; set_Version 9 cfg7; set_Version 8 cfg7])
    as (sorted & Hr & _ & _).
  { repeat constructor. }
  exists sorted. rewrite Hrun, Hr. split; [reflexivity|].
  assert (E : Server.HistoricalConfigs archived
              = Ret ((Some [set_Version 9 cfg7; set_Version 8 cfg7; cfg7], None),
                     archived)) by (cbv; reflexivity).
  rewrite Hrun, Hr in E. injection E as ->. reflexivity.
Defined.

(** A history with a reader that does not decode: nil and the error. *)
Example HistoricalConfigs_malformed :
  Server.HistoricalConfigs
    (mkWorld (set_persister
                (mkStore None [Some cfg7; None; Some cfg7] false 0 false)
                (sv running)) [])
  = Ret ((None, Some (externalError "malformed config")),
         mkWorld (set_persister
                    (mkStore None [Some cfg7; None; Some cfg7] false 0 false)
                    (sv running)) []).
Proof. reflexivity. Qed.

(** ** Runs for the further facts *)

Lemma Allow_touches_container_and_producer_only_witness :
  exists r w',
    Server.Allow "ns" "web" 4 0 false running = Ret (r, w') /\
    bucketContainer (sv w') = Some 6 /\
    cfgs (sv w') = Some cfg7 /\
    persister (sv w') = emptyStore /\
    currentStatus (sv w') = Started.
Proof.
  destruct (Server.Allow "ns" "web" 4 0 false running) as [[r w']| |] eqn:E.
  2, 3: cbv in E; discriminate.
  destruct (Allow_touches_container_and_producer_only "ns" "web" 4 0 false running w' r E)
    as (Hst & _ & _ & Hc & Hp & _).
  exists r, w'. split; [reflexivity|].
  split; [cbv in E; injection E as <- <-; reflexivity|].
  split; [exact Hc|]. split; [exact Hp | exact Hst].
Defined.

Lemma Allow_emits_last_and_takes_at_most_once_witness :
  exists r w',
    Server.Allow "ns" "web" 12 100 true running = Ret (r, w') /\
    calls w' = [CTake (bucketCfg, false) 12 (100 * Millisecond);
                CEmit (NewTimedOutEvent "ns" "web" false 12)] /\
    snd r = Some (newError ER_TIMEOUT).
Proof.
  destruct (Allow_emits_last_and_takes_at_most_once "ns" "web" 12 100 true
              running 10 eq_refl)
    as (r & w' & l & ev & Hrun & _ & _).
  exists r, w'. split; [exact Hrun|].
  assert (E : Server.Allow "ns" "web" 12 100 true running
              = Ret ((0, false, Some (newError ER_TIMEOUT)),
                     mkWorld (mkServer Started (Some 10) ["grpc"] 1
                                (Some [NewTimedOutEvent "ns" "web" false 12])
                                (Some cfg7) emptyStore)
                             [CTake (bucketCfg, false) 12 (100 * Millisecond);
                              CEmit (NewTimedOutEvent "ns" "web" false 12)]))
    by (cbv; reflexivity).
  rewrite Hrun in E. injection E as -> ->. split; reflexivity.
Defined.

Lemma Allow_passes_non_positive_requests_to_Take_witness :
  (-3 <= 0) /\
  exists r w',
    Server.Allow "ns" "capped" (-3) 0 false running = Ret (r, w') /\
    takes (calls w') = [((cappedCfg, false), -3, 5000 * Millisecond)] /\
    r = (0, false, None) /\
    bucketContainer (sv w') = Some 13.
Proof.
  split; [lia|].
  destruct (Allow_passes_non_positive_requests_to_Take "ns" "capped" (-3) 0
              false running 10 10 (cappedCfg, false) eq_refl eq_refl)
    as (r & w' & l & Hrun & Hcalls & Ht & _); [lia|].
  exists r, w'. split; [exact Hrun|].
  split; [rewrite Hcalls; exact Ht|].
  assert (E : exists w0, Server.Allow "ns" "capped" (-3) 0 false running
                         = Ret ((0, false, None), w0)
                         /\ bucketContainer (sv w0) = Some 13)
    by (eexists; split; [cbv; reflexivity | reflexivity]).
  destruct E as (w0 & E & Hb). rewrite Hrun in E. injection E as -> ->.
  split; [reflexivity | exact Hb].
Defined.

Lemma Allow_wait_is_bounded_by_the_timeout_witness :
  exists r w',
    Server.Allow "ns" "web" 1 (-5) true running = Ret (r, w') /\
    takes (calls w') = [((bucketCfg, false), 1, -5 * 1000000)] /\
    -5 * 1000000 <= WaitTimeoutMillis bucketCfg * 1000000.
Proof.
  destruct (Server.Allow "ns" "web" 1 (-5) true running) as [[r w']| |] eqn:E.
  2, 3: cbv in E; discriminate.
  destruct (Allow_wait_is_bounded_by_the_timeout "ns" "web" 1 (-5) true
              running w' r E) as (l & Hcalls & Hb); [lia|].
  exists r, w'. split; [reflexivity|].
  assert (Ht : takes (calls w') = [((bucketCfg, false), 1, -5 * 1000000)])
    by (cbv in E; injection E as <- <-; reflexivity).
  split; [exact Ht|].
  rewrite Hcalls in Ht. cbn in Ht.
  destruct (Hb (bucketCfg, false) 1 (-5 * 1000000)) as (H & _).
  - rewrite Ht. left. reflexivity.
  - cbn. lia.
  - exact H.
Defined.

Lemma Allow_copies_agree_below_the_timeout_witness :
  exists wait dyn e w',
    Server.Allow "dyn" "web" 12 100 true running = Ret ((wait, dyn, e), w') /\
    ServerGo.Allow "dyn" "web" 12 100 true running = Ret ((wait, e), w') /\
    dyn = true /\ e = Some (newError ER_TIMEOUT).
Proof.
  destruct (Allow_copies_agree_below_the_timeout "dyn" "web" 12 100 true
              running 10 eq_refl)
    as (wait & dyn & e & w' & H1 & H2).
  { intros b bc' Hf _. cbv in Hf. injection Hf as <- _. reflexivity. }
  exists wait, dyn, e, w'. split; [exact H1|]. split; [exact H2|].
  assert (E : exists w0, Server.Allow "dyn" "web" 12 100 true running
                = Ret ((0, true, Some (newError ER_TIMEOUT)), w0))
    by (eexists; cbv; reflexivity).
  destruct E as (w0 & E). rewrite H1 in E. injection E as _ -> -> _.
  split; reflexivity.
Defined.

Lemma updateConfig_succeeds_iff_witness :
  cfgs (sv running) = Some cfg7 /\
  exists e w',
    Server.AddNamespace 32 tenant "bob" 2000 running = Ret (e, w') /\
    e = None /\
    List.length (persisted (calls w')) = 1%nat.
Proof.
  split; [reflexivity|].
  destruct (updateConfig_succeeds_iff 32 "bob" 2000
              (fun clonedCfg => CreateNamespace clonedCfg tenant)
              running cfg7 eq_refl)
    as (e & w' & l & Hrun & Hcalls & Hiff & Hl & _).
  exists e, w'. split; [exact Hrun|]. split.
  - apply Hiff. repeat split.
  - rewrite Hcalls, Hl by (split; reflexivity). reflexivity.
Defined.

Lemma back_to_back_mutations_get_the_same_version_witness :
  exists w1 w2,
    Server.AddNamespace 32 tenant "bob" 2000 running = Ret (None, w1) /\
    Server.DeleteNamespace 32 "tenant" "carol" 2001 w1
      = Ret (Some (externalError "no such namespace"), w1) /\
    Server.UpdateConfig 32 cfg7 "carol" 2001 w1 = Ret (None, w2) /\
    map (option_map Version) (persisted (calls w2)) = [Some 8; Some 8].
Proof.
  destruct (Server.AddNamespace 32 tenant "bob" 2000 running)
    as [[e1 w1]| |] eqn:E1.
  2, 3: cbv in E1; discriminate.
  assert (He1 : e1 = None) by (cbv in E1; injection E1 as <- _; reflexivity).
  subst e1.
  destruct (Server.UpdateConfig 32 cfg7 "carol" 2001 w1)
    as [[e2 w2]| |] eqn:E2.
  2, 3: cbv in E1; injection E1 as <-; cbv in E2; discriminate.
  assert (He2 : e2 = None)
    by (cbv in E1; injection E1 as <-; cbv in E2; injection E2 as <- _;
        reflexivity).
  subst e2.
  destruct (back_to_back_mutations_get_the_same_version 32 "bob" "carol"
              2000 2001 (fun clonedCfg => CreateNamespace clonedCfg tenant)
              (fun _ => (cfg7, None)) running w1 w2 cfg7 eq_refl E1 E2)
    as (c1 & c2 & Hcalls & _ & _ & Hv1 & Hv2).
  exists w1, w2. split; [reflexivity|].
  split; [clear E2 Hcalls; cbv in E1; injection E1 as <-; reflexivity|].
  split; [exact E2|].
  rewrite Hcalls. cbn. rewrite Hv1, Hv2. reflexivity.
Defined.

Lemma installed_together_is_kept_witness :
  installed_together (sv degraded) /\
  installed (sv degraded) /\
  forall w', Server.configListener 1 degraded = Ret (tt, w') ->
             installed_together (sv w') /\ installed (sv w').
Proof.
  assert (Hi : installed (sv degraded))
    by (do 2 eexists; split; reflexivity).
  assert (Hit : installed_together (sv degraded)) by (right; exact Hi).
  split; [exact Hit|]. split; [exact Hi|].
  destruct (installed_together_is_kept degraded Hit) as (_ & _ & Hl & _).
  intros w' Hrun. destruct (Hl 1%nat w' Hrun) as [H1 H2].
  split; [exact H1 | apply H2; exact Hi].
Defined.



Lemma HistoricalConfigs_returns_the_first_error_witness :
  Server.HistoricalConfigs
    (mkWorld (set_persister
                (mkStore None [Some cfg7; None; Some cfg7; None] false 0 false)
                (sv running)) [])
  = Ret ((None, Some (externalError "malformed config")),
         mkWorld (set_persister
                    (mkStore None [Some cfg7; None; Some cfg7; None] false 0 false)
                    (sv running)) []).
Proof.
  apply (HistoricalConfigs_returns_the_first_error
           (mkWorld (@set_persister buckets producers configs
                       (mkStore None [Some cfg7; None; Some cfg7; None]
                                false 0 false)
                       (sv running)) [])
           [Some cfg7] [Some cfg7; None] None None
           (externalError "malformed config")).
  - reflexivity.
  - constructor; [exists cfg7; reflexivity | constructor].
  - reflexivity.
Defined.

Lemma mutation_then_reload_installs_the_stamped_config_witness :
  exists w1 w2 live,
    Server.AddNamespace 32 tenant "bob" 2000 running = Ret (None, w1) /\
    Server.configListener 1 w1 = Ret (tt, w2) /\
    Configs w2 = Ret (Some live, w2) /\
    Version live = 8 /\ User live = "bob" /\ Date live = 2000 /\
    Namespaces live = [tenant] /\
    bucketContainer (sv w2) = Some 10.
Proof.
  destruct (Server.AddNamespace 32 tenant "bob" 2000 running)
    as [[e1 w1]| |] eqn:E1.
  2, 3: cbv in E1; discriminate.
  assert (He1 : e1 = None) by (cbv in E1; injection E1 as <- _; reflexivity).
  subst e1.
  assert (Hw1 := E1). cbv in Hw1. injection Hw1 as Hw1.
  destruct (mutation_then_reload_installs_the_stamped_config 32 "bob" 2000
              (fun clonedCfg => CreateNamespace clonedCfg tenant)
              running w1 cfg7
              (mkStore (Some (Some (mkServiceConfig 8 "bob" 2000 (Some bucketCfg)
                                      [tenant])))
                       [Some (mkServiceConfig 8 "bob" 2000 (Some bucketCfg)
                                [tenant])]
                       false 0 false)
              eq_refl E1)
    as (w2 & live & HL & HC & Hlive & _ & _ & _ & Hb).
  - rewrite <- Hw1. reflexivity.
  - intros c rd HM. cbv in HM. injection HM as <-. reflexivity.
  - intros rd Hp. rewrite <- Hw1 in Hp. cbv in Hp. injection Hp as <-.
    reflexivity.
  - exists w1, w2, live. split; [reflexivity|]. split; [exact HL|].
    split; [exact HC|]. rewrite Hb, Hlive. repeat split.
Defined.
